(** * Upload pipeline, media prober and signed URLs of the video service

    A shallow embedding of the Go handlers [handlerUploadVideo],
    [handlerUploadThumbnail] (three variants), of [getVideoAspectRatio] and of
    [dbVideoToSignedVideo], with the properties their specification states.

    Go values are modelled as follows: [string] is a byte string, [[]byte] is
    [list byte], [int] is [Z], [float64] is the kernel's binary64 [float],
    a [*string] is an [option string]. A library call returning [(T, error)]
    gives a [result T]; the repository's own functions return the pair they
    are written with. A handler is a function on the [World]: the metadata
    store, the local files, the object store, the response written and the
    trace of outside calls; what the outside decides during a request (which
    call fails, which name the temporary file gets) is its [Fate]. *)

From Stdlib Require Import ZArith NArith Ascii String List Floats Uint63 Lia.
From Stdlib Require Import Init.Byte.
From stdpp Require Import base option gmap strings list fin_maps.

Local Open Scope Z_scope.

(** ** Errors *)

Definition error := string.

Inductive result (A : Type) : Type :=
| Ok (a : A)
| Err (e : error).
Arguments Ok {A} a.
Arguments Err {A} e.

(** [fmt.Errorf("...: %w", err)] *)
Definition wrapf (msg : string) (err : error) : error := msg +:+ err.

(** ** Byte strings: [encoding/hex], [encoding/base64], [strings.Split] *)

(** [s[i]] for an index inside the table (the encoders never leave it). *)
Definition charAt (s : string) (i : N) : ascii :=
  match String.get (N.to_nat i) s with
  | Some c => c
  | None => Ascii.zero
  end.

Definition hextable : string := "0123456789abcdef".

(** One step of [hex.Encode]: [hextable[v>>4]], [hextable[v&0x0f]]. *)
Definition hexByte (v : byte) : string :=
  String (charAt hextable (N.shiftr (Byte.to_N v) 4))
    (String (charAt hextable (N.land (Byte.to_N v) 15)) EmptyString).

Fixpoint hex_EncodeToString (src : list byte) : string :=
  match src with
  | [] => ""
  | v :: rest => hexByte v +:+ hex_EncodeToString rest
  end.

Module base64.

Record Encoding := mkEncoding { encode : string; padChar : option ascii }.

Definition StdEncoding : Encoding :=
  mkEncoding "ABCDEFGHIJKLMNOPQRSTUVWXYZabcdefghijklmnopqrstuvwxyz0123456789+/"
             (Some "="%char).

Definition RawURLEncoding : Encoding :=
  mkEncoding "ABCDEFGHIJKLMNOPQRSTUVWXYZabcdefghijklmnopqrstuvwxyz0123456789-_"
             None.

(** [enc.encode[val>>k&0x3F]] *)
Definition sextet (enc : Encoding) (val k : N) : ascii :=
  charAt (encode enc) (N.land (N.shiftr val k) 63).

Definition padding (enc : Encoding) (n : nat) : string :=
  match padChar enc with
  | Some c => String.concat "" (replicate n (String c EmptyString))
  | None => ""
  end.

(** [Encode]: whole groups of three bytes give four characters; a tail of
    one or two bytes gives two or three characters and the padding. *)
Fixpoint EncodeToString (enc : Encoding) (src : list byte) : string :=
  match src with
  | [] => ""
  | [a] =>
    let val := N.shiftl (Byte.to_N a) 16 in
    String (sextet enc val 18) (String (sextet enc val 12) (padding enc 2))
  | [a; b] =>
    let val := N.lor (N.shiftl (Byte.to_N a) 16) (N.shiftl (Byte.to_N b) 8) in
    String (sextet enc val 18) (String (sextet enc val 12)
      (String (sextet enc val 6) (padding enc 1)))
  | a :: b :: c :: rest =>
    let val := N.lor (N.lor (N.shiftl (Byte.to_N a) 16) (N.shiftl (Byte.to_N b) 8))
                     (Byte.to_N c) in
    String (sextet enc val 18) (String (sextet enc val 12)
      (String (sextet enc val 6) (String (sextet enc val 0)
        (EncodeToString enc rest))))
  end.

End base64.

(** [strings.Split(s, sep)] for a one-byte separator, the only use the source
    makes of it: the pieces of [s] between the occurrences of [sep], in order;
    a string without [sep] is its own single piece. *)
Fixpoint Split (s : string) (sep : ascii) : list string :=
  match s with
  | EmptyString => [EmptyString]
  | String c s' =>
    if Ascii.eqb c sep then EmptyString :: Split s' sep
    else match Split s' sep with
         | p :: ps => String c p :: ps
         | [] => [String c EmptyString]
         end
  end.

(** Whether the byte [c] occurs in [s]. *)
Fixpoint hasByte (c : ascii) (s : string) : bool :=
  match s with
  | EmptyString => false
  | String d s' => Ascii.eqb d c || hasByte c s'
  end.

(** ** Data model *)

(** A [uuid.UUID], represented by its canonical text form ([String()]). *)
Definition UUID := string.

(** Modelled from the spec: the record type [database.Video] of
    internal/database, which is not among the sources: identity, owner, the
    two nullable location fields and descriptive fields. *)
Record Video := mkVideo {
  ID : UUID;
  UserID : UUID;
  VideoURL : option string;
  ThumbnailURL : option string;
  Title : string;
  Description : string
}.

Definition setVideoURL (v : Video) (u : option string) : Video :=
  mkVideo (ID v) (UserID v) u (ThumbnailURL v) (Title v) (Description v).

Definition setThumbnailURL (v : Video) (u : option string) : Video :=
  mkVideo (ID v) (UserID v) (VideoURL v) u (Title v) (Description v).

(** Modelled from the spec: the fields of [apiConfig] (declared in main.go,
    not among the sources) that the handlers read. The metadata store [cfg.db]
    and the object store behind [cfg.s3Client] are part of the [World]. *)
Record apiConfig := mkConfig {
  jwtSecret : string;
  s3Bucket : string;
  s3Region : string;
  assetsRoot : string;
  port : string
}.

(** ** Signed-URL generator (presigned_url.go, video_signed_url.go) *)

Module Signer.

(** [time.Hour], a [time.Duration] in nanoseconds. *)
Definition Hour : Z := 3600 * 1000000000.

Section WithPresigner.

(** [s3.NewPresignClient(c).PresignGetObject(ctx, {Bucket, Key},
    WithPresignExpires(d))]: the URL of the presigned request, or an error. *)
Variable PresignGetObject : string -> string -> Z -> result string.

Definition generatePresignedURL (bucket key : string) (expireTime : Z)
  : string * option error :=
  match PresignGetObject bucket key expireTime with
  | Err err => ("", Some err)
  | Ok url => (url, None)
  end.

Definition dbVideoToSignedVideo (video : Video) : Video * option error :=
  match VideoURL video with
  | None => (video, None)
  | Some url =>
    let parts := Split url ","%char in
    if negb (Nat.eqb (length parts) 2) then (video, None)
    else
      let bucket := nth 0 parts "" in
      let key := nth 1 parts "" in
      match generatePresignedURL bucket key Hour with
      | (_, Some err) => (video, Some err)
      | (signedURL, None) => (setVideoURL video (Some signedURL), None)
      end
  end.

End WithPresigner.

End Signer.

(** ** Aspect classifier and media prober (video_aspect_ratio.go) *)

Module Prober.

Record Stream := mkStream { Width : Z; Height : Z }.

Record FFProbeOutput := mkFFProbeOutput { Streams : list Stream }.

(** [float64(n)] for a Go [int] (64-bit, two's complement): the nearest
    binary64 value. [of_uint63] converts the magnitude, which fits 63 bits
    except for the least int. *)
Definition float64_of_int (n : Z) : float :=
  if n =? - 2 ^ 63 then (- (PrimFloat.of_uint63 (Uint63.of_Z (2 ^ 62)) * 2))%float
  else if n <? 0 then (- PrimFloat.of_uint63 (Uint63.of_Z (- n)))%float
  else PrimFloat.of_uint63 (Uint63.of_Z n).

#[local] Set Warnings "-inexact-float".
Definition tolerance : float := 0.1%float.
#[local] Set Warnings "inexact-float".

(** Lines 52-64 of [getVideoAspectRatio]: the label of a width and height. *)
Definition aspectLabel (w h : Z) : string :=
  let width := float64_of_int w in
  let height := float64_of_int h in
  let ratio := (width / height)%float in
  if (PrimFloat.abs (ratio - 16 / 9) <? tolerance)%float then "16:9"
  else if (PrimFloat.abs (ratio - 9 / 16) <? tolerance)%float then "9:16"
  else "other".

Section WithTool.

(** [exec.Command(name, args...)] with [Stdout] captured and [Run]: the
    bytes the tool printed, or the error of a failed start or non-zero exit. *)
Variable exec_Run : string -> list string -> result (list byte).

(** [json.Unmarshal(out, &data)] into an [FFProbeOutput]. *)
Variable json_Unmarshal : list byte -> result FFProbeOutput.

Definition getVideoAspectRatio (filePath : string) : string * option error :=
  match exec_Run "ffprobe"
          ["-v"; "error"; "-print_format"; "json"; "-show_streams"; filePath] with
  | Err err => ("", Some (wrapf "error running ffprobe: " err))
  | Ok out =>
    match json_Unmarshal out with
    | Err err => ("", Some (wrapf "error unmarshaling ffprobe output: " err))
    | Ok data =>
      match Streams data with
      | [] => ("", Some "no streams found in video file")
      | s0 :: _ => (aspectLabel (Width s0) (Height s0), None)
      end
    end
  end.

End WithTool.

End Prober.

(** ** The world a handler acts on *)

(** Modelled from the spec: what [respondWithError] and [respondWithJSON]
    (json.go, not among the sources) write to the client: an error envelope
    holding only a message, or the video record, each with an HTTP status. *)
Inductive Response :=
| RespError (code : Z) (msg : string)
| RespJSON (code : Z) (payload : Video).

Definition StatusOK : Z := 200.
Definition StatusBadRequest : Z := 400.
Definition StatusUnauthorized : Z := 401.
Definition StatusNotFound : Z := 404.
Definition StatusInternalServerError : Z := 500.

(** An open file: the uploaded part ([multipart.File]) or a local file. *)
Inductive Handle :=
| UploadPart
| OnDisk (path : string).

(** The calls a handler makes that reach outside of it, in the order made. *)
Inductive Event :=
| EvCreateTemp (name : string)
| EvCreate (path : string)
| EvCopy (path : string)
| EvSeek (path : string)
| EvClose (h : Handle)
| EvRemove (path : string)
| EvPutObject (bucket key contentType : string)
| EvUpdateVideo (v : Video)
| EvRespond (r : Response).

Record World := mkWorld {
  db : gmap string Video;                       (* metadata store, by video id *)
  disk : gmap string (list byte);               (* local files, by path *)
  objects : gmap (string * string) (string * list byte);
                                                (* object store: (bucket, key) to (type, body) *)
  resp : option Response;                       (* what the ResponseWriter holds *)
  trace : list Event                            (* oldest first *)
}.

Definition setDb (f : gmap string Video -> gmap string Video) (w : World) : World :=
  mkWorld (f (db w)) (disk w) (objects w) (resp w) (trace w).

Definition setDisk (f : gmap string (list byte) -> gmap string (list byte))
  (w : World) : World :=
  mkWorld (db w) (f (disk w)) (objects w) (resp w) (trace w).

Definition setObjects
  (f : gmap (string * string) (string * list byte) ->
       gmap (string * string) (string * list byte)) (w : World) : World :=
  mkWorld (db w) (disk w) (f (objects w)) (resp w) (trace w).

Definition emit (e : Event) (w : World) : World :=
  mkWorld (db w) (disk w) (objects w) (resp w) (trace w ++ [e]).

Definition respond (r : Response) (w : World) : World :=
  mkWorld (db w) (disk w) (objects w) (Some r) (trace w ++ [EvRespond r]).

(** The cause [err] is logged only; the client sees [code] and [msg]. *)
Definition respondWithError (code : Z) (msg : string) (err : option error)
  : World -> World :=
  respond (RespError code msg).

Definition respondWithJSON (code : Z) (payload : Video) : World -> World :=
  respond (RespJSON code payload).

(** [defer d; body]: [d] runs when the function returns, after [body] and
    after every call deferred later (LIFO). *)
Definition defer (d : World -> World) (body : World -> World) : World -> World :=
  fun w => d (body w).

(** What the operating system, the entropy source and the remote stores
    decide during one request. *)
Record Fate := mkFate {
  createTemp : result string;      (* os.CreateTemp: the name picked *)
  create : option error;           (* os.Create *)
  copy : option (nat * error);     (* io.Copy: failure after so many bytes *)
  seek : option error;             (* Seek on the staged file *)
  readAll : option error;          (* io.ReadAll of the uploaded part *)
  entropy : result (list byte);    (* crypto/rand.Read *)
  putObject : option error;        (* s3 PutObject *)
  updateVideo : option error       (* db.UpdateVideo *)
}.

(** *** Local files *)

Definition os_CreateTemp (fate : Fate) (w : World) : result string * World :=
  match createTemp fate with
  | Err err => (Err err, w)
  | Ok name => (Ok name, emit (EvCreateTemp name) (setDisk (insert name []) w))
  end.

(** [os.Create]: creates or truncates the named file. *)
Definition os_Create (fate : Fate) (path : string) (w : World)
  : option error * World :=
  match create fate with
  | Some err => (Some err, w)
  | None => (None, emit (EvCreate path) (setDisk (insert path []) w))
  end.

(** [io.Copy(dst, src)] into the local file [dst]; a failing copy leaves the
    bytes written so far. *)
Definition io_Copy (fate : Fate) (dst : string) (src : list byte) (w : World)
  : option error * World :=
  match copy fate with
  | Some (n, err) => (Some err, emit (EvCopy dst) (setDisk (insert dst (take n src)) w))
  | None => (None, emit (EvCopy dst) (setDisk (insert dst src) w))
  end.

Definition file_Seek (fate : Fate) (path : string) (w : World)
  : option error * World :=
  (seek fate, emit (EvSeek path) w).

Definition file_Close (h : Handle) : World -> World := emit (EvClose h).

(** [os.Remove(name)]: the file is gone afterwards. The handlers discard the
    call's error, and none is modelled. *)
Definition os_Remove (name : string) (w : World) : World :=
  emit (EvRemove name) (setDisk (delete name) w).

(** [rand.Read(b)] for [b := make([]byte, n)]: [n] bytes of entropy. *)
Definition rand_Read (fate : Fate) (n : nat) : result (list byte) :=
  match entropy fate with
  | Err err => Err err
  | Ok bs => Ok (take n (bs ++ replicate n "000"%byte))
  end.

(** *** Remote and metadata stores *)

(** [PutObject] with the local file [body] as the object's body. *)
Definition s3_PutObject (fate : Fate) (bucket key : string) (body : string)
  (contentType : string) (w : World) : option error * World :=
  match putObject fate with
  | Some err => (Some err, emit (EvPutObject bucket key contentType) w)
  | None =>
    (None, emit (EvPutObject bucket key contentType)
             (setObjects (insert (bucket, key)
                            (contentType, default [] (disk w !! body))) w))
  end.

(** Modelled from the spec: [GetVideo(id)] of the metadata store
    (internal/database, not among the sources): the record or not-found. *)
Definition GetVideo (w : World) (id : UUID) : result Video :=
  match db w !! id with
  | Some v => Ok v
  | None => Err "not found"
  end.

(** Modelled from the spec: [UpdateVideo(record)] of the metadata store
    (internal/database, not among the sources): replaces the whole record
    stored under the record's id, or fails and leaves the store as it was. *)
Definition UpdateVideo (fate : Fate) (v : Video) (w : World) : option error * World :=
  match updateVideo fate with
  | Some err => (Some err, emit (EvUpdateVideo v) w)
  | None => (None, emit (EvUpdateVideo v) (setDb (insert (ID v) v) w))
  end.

(** *** The request *)

(** [http.Header] and [textproto.MIMEHeader]. *)
Definition Header_Get (h : gmap string (list string)) (key : string) : string :=
  match h !! key with
  | Some (v :: _) => v
  | _ => ""
  end.

(** A file part of a multipart form: its [FileHeader] and its bytes. *)
Record Part := mkPart {
  Filename : string;
  PartHeader : gmap string (list string);
  content : list byte
}.

(** The request body, possibly behind [http.MaxBytesReader]. *)
Record BodyReader := mkBody { bytes : list byte; limit : option Z }.

Definition MaxBytesReader (b : BodyReader) (n : Z) : BodyReader :=
  mkBody (bytes b)
         (Some (match limit b with Some m => Z.min m n | None => n end)).

(** Reading the body to its end: fails once more than [limit] bytes came. *)
Definition drain (b : BodyReader) : result (list byte) :=
  match limit b with
  | Some n =>
    if n <? Z.of_nat (length (bytes b)) then Err "http: request body too large"
    else Ok (bytes b)
  | None => Ok (bytes b)
  end.

Record Request := mkRequest {
  PathValues : gmap string string;
  Header : gmap string (list string);
  Body : BodyReader;
  MultipartForm : option (gmap string (list Part))
}.

Definition PathValue (r : Request) (name : string) : string :=
  default "" (PathValues r !! name).

Definition setBody (r : Request) (b : BodyReader) : Request :=
  mkRequest (PathValues r) (Header r) b (MultipartForm r).

(** The libraries the handlers call: pure functions of their arguments. *)
Class Collaborators := {
  uuid_Parse : string -> result UUID;
  auth_GetBearerToken : gmap string (list string) -> result string;
  auth_ValidateJWT : string -> string -> result UUID;
  (** [multipart.Reader.ReadForm] on the request's headers and whole body *)
  multipart_ReadForm :
    gmap string (list string) -> list byte -> result (gmap string (list Part));
  (** [mime.ParseMediaType]: the media type and its parameters *)
  mime_ParseMediaType : string -> result (string * list (string * string));
  filepath_Join : string -> string -> string
}.

Section Requests.
Context `{Collaborators}.

(** [r.ParseMultipartForm(maxMemory)]: the multipart reader consumes the
    body to its end through the body's reader, so it meets the limit that
    [MaxBytesReader] installed when the body is longer; the form is kept in
    the request. [maxMemory] only decides where the parts are buffered. *)
Definition ParseMultipartForm (r : Request) (maxMemory : Z) : result Request :=
  match MultipartForm r with
  | Some _ => Ok r
  | None =>
    match drain (Body r) with
    | Err err => Err err
    | Ok all =>
      match multipart_ReadForm (Header r) all with
      | Err err => Err err
      | Ok form => Ok (mkRequest (PathValues r) (Header r) (Body r) (Some form))
      end
    end
  end.

Definition defaultMaxMemory : Z := Z.shiftl 32 20.

(** [r.FormFile(key)]: parses the form if that was not done yet; the first
    file under [key]. *)
Definition FormFile (r : Request) (key : string) : result Part :=
  match ParseMultipartForm r defaultMaxMemory with
  | Err err => Err err
  | Ok r' =>
    match MultipartForm r' with
    | Some form =>
      match form !! key with
      | Some (p :: _) => Ok p
      | _ => Err "http: no such file"
      end
    | None => Err "http: no such file"
    end
  end.

End Requests.

(** ** Video upload (handler_upload_video.go) *)

Section VideoUpload.
Context `{Collaborators}.

Definition handlerUploadVideo (cfg : apiConfig) (fate : Fate) (r : Request)
  : World -> World :=
  (* Set 1GB upload limit *)
  let r := setBody r (MaxBytesReader (Body r) (Z.shiftl 1 30)) in
  (* Extract and validate video ID *)
  let videoIDString := PathValue r "videoID" in
  match uuid_Parse videoIDString with
  | Err err => respondWithError StatusBadRequest "Invalid video ID" (Some err)
  | Ok videoID =>
  (* Authenticate user *)
  match auth_GetBearerToken (Header r) with
  | Err err => respondWithError StatusUnauthorized "Couldn't find JWT" (Some err)
  | Ok token =>
  match auth_ValidateJWT token (jwtSecret cfg) with
  | Err err => respondWithError StatusUnauthorized "Couldn't validate JWT" (Some err)
  | Ok userID =>
  fun w =>
  (* Get video metadata and check ownership *)
  match GetVideo w videoID with
  | Err err => respondWithError StatusNotFound "Couldn't get video" (Some err) w
  | Ok video =>
  if decide (UserID video ≠ userID)
  then respondWithError StatusUnauthorized "You don't own this video" None w
  else
  (* Parse the multipart form to get the file *)
  match FormFile r "video" with
  | Err err =>
    respondWithError StatusBadRequest "Error getting video from form" (Some err) w
  | Ok file =>
  defer (file_Close UploadPart) (fun w =>
  (* Validate file type *)
  match mime_ParseMediaType (Header_Get (PartHeader file) "Content-Type") with
  | Err err =>
    respondWithError StatusBadRequest "Invalid Content-Type header" (Some err) w
  | Ok (mediaType, _) =>
  if decide (mediaType ≠ "video/mp4")
  then respondWithError StatusBadRequest
         "File type not allowed. Only MP4 videos are supported." None w
  else
  (* Create temporary file *)
  match os_CreateTemp fate w with
  | (Err err, w) =>
    respondWithError StatusInternalServerError "Couldn't create temporary file"
      (Some err) w
  | (Ok tempFile, w) =>
  defer (os_Remove tempFile) (
  defer (file_Close (OnDisk tempFile)) (fun w =>
  (* Copy uploaded file to temporary file *)
  match io_Copy fate tempFile (content file) w with
  | (Some err, w) =>
    respondWithError StatusInternalServerError "Couldn't save file" (Some err) w
  | (None, w) =>
  (* Reset file pointer to beginning *)
  match file_Seek fate tempFile w with
  | (Some err, w) =>
    respondWithError StatusInternalServerError "Couldn't reset file pointer"
      (Some err) w
  | (None, w) =>
  (* Generate random filename for S3 *)
  match rand_Read fate 32 with
  | Err err =>
    respondWithError StatusInternalServerError "Couldn't generate random filename"
      (Some err) w
  | Ok randomBytes =>
  let filename := hex_EncodeToString randomBytes +:+ ".mp4" in
  (* Upload to S3 *)
  match s3_PutObject fate (s3Bucket cfg) filename tempFile mediaType w with
  | (Some err, w) =>
    respondWithError StatusInternalServerError "Couldn't upload file to S3"
      (Some err) w
  | (None, w) =>
  (* Create S3 URL *)
  let videoURL :=
    "https://" +:+ s3Bucket cfg +:+ ".s3." +:+ s3Region cfg
      +:+ ".amazonaws.com/" +:+ filename in
  let video := setVideoURL video (Some videoURL) in
  (* Update video metadata in database *)
  match UpdateVideo fate video w with
  | (Some err, w) =>
    respondWithError StatusInternalServerError "Couldn't update video metadata"
      (Some err) w
  | (None, w) =>
  respondWithJSON StatusOK video w
  end end end end end)) w end end) w end end end end end.

End VideoUpload.

(** ** Thumbnail upload, stored under the video id (handler_upload_thumbnail.go,
    first variant) *)

Module ThumbnailByVideoID.
Section Handler.
Context `{Collaborators}.

Definition handlerUploadThumbnail (cfg : apiConfig) (fate : Fate) (r : Request)
  : World -> World :=
  let videoIDString := PathValue r "videoID" in
  match uuid_Parse videoIDString with
  | Err err => respondWithError StatusBadRequest "Invalid ID" (Some err)
  | Ok videoID =>
  match auth_GetBearerToken (Header r) with
  | Err err => respondWithError StatusUnauthorized "Couldn't find JWT" (Some err)
  | Ok token =>
  match auth_ValidateJWT token (jwtSecret cfg) with
  | Err err => respondWithError StatusUnauthorized "Couldn't validate JWT" (Some err)
  | Ok userID =>
  (* Parse the multipart form with max 10MB *)
  let maxMemory := Z.shiftl 10 20 in
  match ParseMultipartForm r maxMemory with
  | Err err =>
    respondWithError StatusBadRequest "Error parsing multipart form" (Some err)
  | Ok r =>
  (* Get the file from form data *)
  match FormFile r "thumbnail" with
  | Err err =>
    respondWithError StatusBadRequest "Error getting thumbnail from form" (Some err)
  | Ok file =>
  defer (file_Close UploadPart) (
  (* Get the content type and determine file extension *)
  let contentType := Header_Get (PartHeader file) "Content-Type" in
  match
    (if decide (contentType = "image/jpeg") then Some ".jpg"
     else if decide (contentType = "image/png") then Some ".png"
     else if decide (contentType = "image/gif") then Some ".gif"
     else if decide (contentType = "application/pdf") then Some ".pdf"
     else None)
  with
  | None => respondWithError StatusBadRequest "Unsupported file type" None
  | Some ext =>
  fun w =>
  (* Get video metadata and check ownership *)
  match GetVideo w videoID with
  | Err err => respondWithError StatusNotFound "Couldn't get video" (Some err) w
  | Ok video =>
  if decide (UserID video ≠ userID)
  then respondWithError StatusUnauthorized "You don't own this video" None w
  else
  (* Create the file path using videoID as the filename *)
  let filename := videoID +:+ ext in
  let filePath := filepath_Join (assetsRoot cfg) filename in
  (* Create the destination file *)
  match os_Create fate filePath w with
  | (Some err, w) =>
    respondWithError StatusInternalServerError "Couldn't create file" (Some err) w
  | (None, w) =>
  defer (file_Close (OnDisk filePath)) (fun w =>
  (* Copy the uploaded file to destination *)
  match io_Copy fate filePath (content file) w with
  | (Some err, w) =>
    respondWithError StatusInternalServerError "Couldn't save file" (Some err) w
  | (None, w) =>
  (* Update the video metadata with new thumbnail URL *)
  let thumbnailURL :=
    "http://localhost:" +:+ port cfg +:+ "/assets/" +:+ filename in
  let video := setThumbnailURL video (Some thumbnailURL) in
  (* Save the updated video metadata *)
  match UpdateVideo fate video w with
  | (Some err, w) =>
    (* Try to cleanup the file if database update fails *)
    let w := os_Remove filePath w in
    respondWithError StatusInternalServerError "Couldn't update video" (Some err) w
  | (None, w) =>
  (* Respond with the updated video metadata *)
  respondWithJSON StatusOK video w
  end end) w end end end) end end end end end.

End Handler.
End ThumbnailByVideoID.

(** ** Thumbnail upload, stored under a random key
    (handler_upload_thumbnail.go, second variant) *)

Module ThumbnailRandomKey.
Section Handler.
Context `{Collaborators}.

Definition handlerUploadThumbnail (cfg : apiConfig) (fate : Fate) (r : Request)
  : World -> World :=
  let videoIDString := PathValue r "videoID" in
  match uuid_Parse videoIDString with
  | Err err => respondWithError StatusBadRequest "Invalid ID" (Some err)
  | Ok videoID =>
  match auth_GetBearerToken (Header r) with
  | Err err => respondWithError StatusUnauthorized "Couldn't find JWT" (Some err)
  | Ok token =>
  match auth_ValidateJWT token (jwtSecret cfg) with
  | Err err => respondWithError StatusUnauthorized "Couldn't validate JWT" (Some err)
  | Ok userID =>
  (* Parse the multipart form with max 10MB *)
  let maxMemory := Z.shiftl 10 20 in
  match ParseMultipartForm r maxMemory with
  | Err err =>
    respondWithError StatusBadRequest "Error parsing multipart form" (Some err)
  | Ok r =>
  (* Get the file from form data *)
  match FormFile r "thumbnail" with
  | Err err =>
    respondWithError StatusBadRequest "Error getting thumbnail from form" (Some err)
  | Ok file =>
  defer (file_Close UploadPart) (
  (* Parse and validate the Content-Type *)
  match mime_ParseMediaType (Header_Get (PartHeader file) "Content-Type") with
  | Err err =>
    respondWithError StatusBadRequest "Invalid Content-Type header" (Some err)
  | Ok (mediaType, _) =>
  (* Only allow jpeg and png files *)
  match
    (if decide (mediaType = "image/jpeg") then Some ".jpg"
     else if decide (mediaType = "image/png") then Some ".png"
     else None)
  with
  | None =>
    respondWithError StatusBadRequest
      "File type not allowed. Only JPEG and PNG images are supported." None
  | Some ext =>
  fun w =>
  (* Get video metadata and check ownership *)
  match GetVideo w videoID with
  | Err err => respondWithError StatusNotFound "Couldn't get video" (Some err) w
  | Ok video =>
  if decide (UserID video ≠ userID)
  then respondWithError StatusUnauthorized "You don't own this video" None w
  else
  (* Generate random filename *)
  match rand_Read fate 32 with
  | Err err =>
    respondWithError StatusInternalServerError "Couldn't generate random filename"
      (Some err) w
  | Ok randomBytes =>
  let filename := base64.EncodeToString base64.RawURLEncoding randomBytes +:+ ext in
  let filePath := filepath_Join (assetsRoot cfg) filename in
  (* Create the destination file *)
  match os_Create fate filePath w with
  | (Some err, w) =>
    respondWithError StatusInternalServerError "Couldn't create file" (Some err) w
  | (None, w) =>
  defer (file_Close (OnDisk filePath)) (fun w =>
  (* Copy the uploaded file to destination *)
  match io_Copy fate filePath (content file) w with
  | (Some err, w) =>
    respondWithError StatusInternalServerError "Couldn't save file" (Some err) w
  | (None, w) =>
  (* Update the video metadata with new thumbnail URL *)
  let thumbnailURL :=
    "http://localhost:" +:+ port cfg +:+ "/assets/" +:+ filename in
  let video := setThumbnailURL video (Some thumbnailURL) in
  (* Save the updated video metadata *)
  match UpdateVideo fate video w with
  | (Some err, w) =>
    (* Try to cleanup the file if database update fails *)
    let w := os_Remove filePath w in
    respondWithError StatusInternalServerError "Couldn't update video" (Some err) w
  | (None, w) =>
  (* Respond with the updated video metadata *)
  respondWithJSON StatusOK video w
  end end) w end end end end end) end end end end end.

End Handler.
End ThumbnailRandomKey.

(** ** Thumbnail upload, stored inline as a data URL
    (handler_upload_thumbnail.go, third variant) *)

Module ThumbnailInline.
Section Handler.
Context `{Collaborators}.

(** [io.ReadAll(file)] of the uploaded part. *)
Definition io_ReadAll (fate : Fate) (file : Part) : result (list byte) :=
  match readAll fate with
  | Some err => Err err
  | None => Ok (content file)
  end.

Definition handlerUploadThumbnail (cfg : apiConfig) (fate : Fate) (r : Request)
  : World -> World :=
  let videoIDString := PathValue r "videoID" in
  match uuid_Parse videoIDString with
  | Err err => respondWithError StatusBadRequest "Invalid ID" (Some err)
  | Ok videoID =>
  match auth_GetBearerToken (Header r) with
  | Err err => respondWithError StatusUnauthorized "Couldn't find JWT" (Some err)
  | Ok token =>
  match auth_ValidateJWT token (jwtSecret cfg) with
  | Err err => respondWithError StatusUnauthorized "Couldn't validate JWT" (Some err)
  | Ok userID =>
  (* Parse the multipart form with max 10MB *)
  let maxMemory := Z.shiftl 10 20 in
  match ParseMultipartForm r maxMemory with
  | Err err =>
    respondWithError StatusBadRequest "Error parsing multipart form" (Some err)
  | Ok r =>
  (* Get the file from form data *)
  match FormFile r "thumbnail" with
  | Err err =>
    respondWithError StatusBadRequest "Error getting thumbnail from form" (Some err)
  | Ok file =>
  defer (file_Close UploadPart) (
  (* Get the content type *)
  let contentType := Header_Get (PartHeader file) "Content-Type" in
  (* Read all the image data *)
  match io_ReadAll fate file with
  | Err err =>
    respondWithError StatusInternalServerError "Error reading thumbnail data"
      (Some err)
  | Ok imageData =>
  fun w =>
  (* Get video metadata and check ownership *)
  match GetVideo w videoID with
  | Err err => respondWithError StatusNotFound "Couldn't get video" (Some err) w
  | Ok video =>
  if decide (UserID video ≠ userID)
  then respondWithError StatusUnauthorized "You don't own this video" None w
  else
  (* Create data URL from image data *)
  let base64Data := base64.EncodeToString base64.StdEncoding imageData in
  let dataURL := "data:" +:+ contentType +:+ ";base64," +:+ base64Data in
  let video := setThumbnailURL video (Some dataURL) in
  (* Save the updated video metadata *)
  match UpdateVideo fate video w with
  | (Some err, w) =>
    respondWithError StatusInternalServerError "Couldn't update video" (Some err) w
  | (None, w) =>
  (* Respond with the updated video metadata *)
  respondWithJSON StatusOK video w
  end end end) end end end end end.

End Handler.
End ThumbnailInline.

(** ** What the properties of the handlers speak of *)

(** The events a run from [w] to [w'] added. *)
Definition events_since (w w' : World) : list Event :=
  drop (length (trace w)) (trace w').

(** Neither the metadata store, nor the local files, nor the object store
    differ between [w] and [w']. *)
Definition untouched (w w' : World) : Prop :=
  db w' = db w /\ disk w' = disk w /\ objects w' = objects w.

Section Gates.
Context `{Collaborators}.

(** The caller presents a credential that the verifier resolves to [user]. *)
Definition authenticatesAs (cfg : apiConfig) (r : Request) (user : UUID) : Prop :=
  exists token, auth_GetBearerToken (Header r) = Ok token /\
                auth_ValidateJWT token (jwtSecret cfg) = Ok user.

(** The request's path names the stored record [video]. *)
Definition addresses (r : Request) (w : World) (video : Video) : Prop :=
  exists videoID, uuid_Parse (PathValue r "videoID") = Ok videoID /\
                  db w !! videoID = Some video.

(** The file the video handler finds in the form: it reads the body
    through the reader it installed. *)
Definition videoPart (r : Request) : result Part :=
  FormFile (setBody r (MaxBytesReader (Body r) (Z.shiftl 1 30))) "video".

(** The file a thumbnail handler finds in the form. *)
Definition thumbnailPart (r : Request) : result Part :=
  match ParseMultipartForm r (Z.shiftl 10 20) with
  | Err err => Err err
  | Ok r' => FormFile r' "thumbnail"
  end.

(** The media type a part declares, as [mime.ParseMediaType] reads its
    Content-Type header. *)
Definition declaredType (file : Part) : result string :=
  match mime_ParseMediaType (Header_Get (PartHeader file) "Content-Type") with
  | Err err => Err err
  | Ok (mediaType, _) => Ok mediaType
  end.

End Gates.

(** ** Stand-ins for running the handlers on concrete requests *)

(** Collaborators for concrete runs: a non-empty id parses to itself, the
    bearer token is the Authorization header and names its user, the form
    has one file whose field name and declared type the request's X-Field
    and X-Part-Type headers give and whose bytes are the body, and a
    non-empty media type parses to itself. *)
Definition demoLib : Collaborators := {|
  uuid_Parse s := if decide (s = "") then Err "invalid UUID length: 0" else Ok s;
  auth_GetBearerToken h :=
    match h !! "Authorization" with
    | Some (v :: _) => Ok v
    | _ => Err "auth header not included in request"
    end;
  auth_ValidateJWT token secret :=
    if decide (token = "") then Err "invalid token" else Ok token;
  multipart_ReadForm h body :=
    Ok {[ Header_Get h "X-Field" :=
            [mkPart "upload" {[ "Content-Type" := [Header_Get h "X-Part-Type"] ]} body] ]};
  mime_ParseMediaType s :=
    if decide (s = "") then Err "mime: no media type" else Ok (s, []);
  filepath_Join dir name := dir +:+ "/" +:+ name
|}.

(** The record of video-1, owned by alice, with the given video location. *)
Definition demoVideo (location : option string) : Video :=
  mkVideo "video-1" "alice" location None "Boots" "A video of Boots".

Definition demoCfg : apiConfig :=
  mkConfig "secret" "tubely" "us-east-1" "./assets" "8091".

(** A request for video-1 by [user], with one file of the given field name,
    declared type and bytes. *)
Definition demoRequest (user field type : string) (body : list byte) : Request :=
  mkRequest {[ "videoID" := "video-1" ]}
            {[ "Authorization" := [user]; "X-Field" := [field];
               "X-Part-Type" := [type] ]}
            (mkBody body None) None.

(** A store holding video-1, owned by alice, with nothing uploaded yet. *)
Definition demoWorld : World :=
  mkWorld {[ "video-1" := demoVideo None ]} ∅ ∅ None [].

(** Every call succeeds; the temporary file is named tubely-upload-1.mp4. *)
Definition fairFate : Fate :=
  mkFate (Ok "/tmp/tubely-upload-1.mp4") None None None None
         (Ok (replicate 32 "000"%byte)) None None.

(** As [fairFate], but the metadata store refuses the update. *)
Definition storeDownFate : Fate :=
  mkFate (Ok "/tmp/tubely-upload-1.mp4") None None None None
         (Ok (replicate 32 "000"%byte)) None (Some "database is locked").

(** A presigner standing in for the object store's, used to run the
    generator on concrete records. *)
Definition demoPresign (bucket key : string) (expires : Z) : result string :=
  if decide (key = "") then Err "empty key"
  else Ok ("https://" +:+ bucket +:+ ".s3.amazonaws.com/" +:+ key
             +:+ "?X-Amz-Expires=3600").

(** A probing tool and a decoder standing in for ffprobe and the JSON
    decoder: the tool prints two bytes per stream, its width and its height. *)
Definition demoRun (name : string) (args : list string) : result (list byte) :=
  if decide (name = "ffprobe") then
    if decide (last args = Some "portrait.mp4") then Ok ["009"; "016"]%byte
    else if decide (last args = Some "empty.mp4") then Ok []
    else Ok ["016"; "009"; "001"; "001"]%byte
  else Err "executable file not found in $PATH".

Fixpoint demoStreams (fuel : nat) (out : list byte) : list Prober.Stream :=
  match fuel, out with
  | S fuel, a :: b :: rest =>
    Prober.mkStream (Z.of_N (Byte.to_N a)) (Z.of_N (Byte.to_N b))
      :: demoStreams fuel rest
  | _, _ => []
  end.

Definition demoUnmarshal (out : list byte) : result Prober.FFProbeOutput :=
  Ok (Prober.mkFFProbeOutput (demoStreams (length out) out)).


(** The record the video handler stores for video-1 when the entropy source
    gives 32 zero bytes. *)
Definition storedVideo : Video :=
  demoVideo (Some ("https://tubely.s3.us-east-1.amazonaws.com/"
    +:+ "0000000000000000000000000000000000000000000000000000000000000000.mp4")).

(** The record a thumbnail handler submits for video-1. *)
Definition thumbVideo (url : string) : Video :=
  mkVideo "video-1" "alice" None (Some url) "Boots" "A video of Boots".

(** ** What the further properties speak of *)

(** How often the byte [c] occurs in [s]. *)
Fixpoint countByte (c : ascii) (s : string) : nat :=
  match s with
  | EmptyString => 0%nat
  | String d s' => ((if Ascii.eqb d c then 1 else 0) + countByte c s')%nat
  end.

(** The store holds every record under the record's own id. *)
Definition wellKeyed (m : gmap string Video) : Prop :=
  forall k v, m !! k = Some v -> ID v = k.

(** Two records agree on everything but their two location fields. *)
Definition sameIdentity (v v' : Video) : Prop :=
  ID v' = ID v /\ UserID v' = UserID v /\
  Title v' = Title v /\ Description v' = Description v.

(** The events that go beyond answering and closing the uploaded part:
    every call on a local file, on the object store or on the metadata
    store. *)
Definition reachesStorage (e : Event) : bool :=
  match e with
  | EvRespond _ => false
  | EvClose UploadPart => false
  | _ => true
  end.

(** The responses written during a run, in order. *)
Definition responsesIn (evs : list Event) : list Response :=
  omap (fun e => match e with EvRespond r => Some r | _ => None end) evs.

(** The statuses the handlers use: 200 with a record, or an error with one
    of 400, 401, 404 and 500. *)
Definition inTaxonomy (r : Response) : Prop :=
  match r with
  | RespJSON code _ => code = StatusOK
  | RespError code _ =>
    code ∈ [StatusBadRequest; StatusUnauthorized; StatusNotFound;
            StatusInternalServerError]
  end.

Section AllHandlers.
Context `{Collaborators}.

(** The four upload handlers of the sources. *)
Definition uploadHandlers : list (apiConfig -> Fate -> Request -> World -> World) :=
  [handlerUploadVideo;
   ThumbnailByVideoID.handlerUploadThumbnail;
   ThumbnailRandomKey.handlerUploadThumbnail;
   ThumbnailInline.handlerUploadThumbnail].

(** The three thumbnail handlers. *)
Definition thumbnailHandlers
  : list (apiConfig -> Fate -> Request -> World -> World) :=
  [ThumbnailByVideoID.handlerUploadThumbnail;
   ThumbnailRandomKey.handlerUploadThumbnail;
   ThumbnailInline.handlerUploadThumbnail].

End AllHandlers.

(** A presigner that refuses every request. *)
Definition failingPresign (bucket key : string) (expires : Z) : result string :=
  Err "presign: no credentials".

(** The copy to the local file fails after one byte. *)
Definition copyFailsFate : Fate :=
  mkFate (Ok "/tmp/tubely-upload-1.mp4") None (Some (1%nat, "no space left on device"))
         None None (Ok (replicate 32 "000"%byte)) None None.

(** Every call succeeds and the entropy source gives 32 bytes of 255. *)
Definition otherFate : Fate :=
  mkFate (Ok "/tmp/tubely-upload-2.mp4") None None None None
         (Ok (replicate 32 "255"%byte)) None None.

(** The owner's upload of a two-byte MP4 for video-1. *)
Definition mp4Upload : Request :=
  demoRequest "alice" "video" "video/mp4" ["001"; "002"]%byte.

(** The owner's upload of a PNG thumbnail for video-1. *)
Definition pngUpload (body : list byte) : Request :=
  demoRequest "alice" "thumbnail" "image/png" body.

(** The object key that 32 zero bytes give. *)
Definition zeroKey : string :=
  "0000000000000000000000000000000000000000000000000000000000000000.mp4".

(** The thumbnail file name that 32 zero bytes give for a PNG. *)
Definition zeroName : string := "AAAAAAAAAAAAAAAAAAAAAAAAAAAAAAAAAAAAAAAAAAA.png".

(** * Properties *)

(** ** Splitting and the encoders *)

(** [strings.Split] never returns an empty slice for a non-empty separator. *)
Lemma Split_nonempty (s : string) (sep : ascii) : Split s sep ≠ [].
Proof.
  destruct s as [|c s]; simpl; [discriminate|].
  destruct (Ascii.eqb c sep); [discriminate|].
  destruct (Split s sep); discriminate.
Qed.

(** A string without the separator is its own single piece. *)
Lemma Split_no_sep (s : string) (sep : ascii) :
  hasByte sep s = false -> Split s sep = [s].
Proof.
  induction s as [|c s IH]; simpl; [reflexivity|].
  intros [Hc Hs]%orb_false_elim.
  rewrite Hc, (IH Hs). reflexivity.
Qed.

Lemma hasByte_append (c : ascii) (a b : string) :
  hasByte c (a +:+ b) = hasByte c a || hasByte c b.
Proof.
  induction a as [|d a IH]; simpl; [reflexivity|].
  rewrite IH. apply orb_assoc.
Qed.

(** The shape the signed-URL generator decodes: two pieces joined by the
    separator split back into exactly those pieces. *)
Lemma Split_join (b k : string) (sep : ascii) :
  hasByte sep b = false -> hasByte sep k = false ->
  Split (b +:+ String sep k) sep = [b; k].
Proof.
  intros Hb Hk. induction b as [|c b IH]; simpl in *.
  - rewrite Ascii.eqb_refl, (Split_no_sep _ _ Hk). reflexivity.
  - apply orb_false_elim in Hb as [Hc Hb].
    rewrite Hc, (IH Hb). reflexivity.
Qed.

(** Hex digits are never commas. *)
Lemma hexByte_no_comma (v : byte) : hasByte ","%char (hexByte v) = false.
Proof. destruct v; reflexivity. Qed.

Lemma hex_no_comma (src : list byte) :
  hasByte ","%char (hex_EncodeToString src) = false.
Proof.
  induction src as [|v src IH]; cbn [hex_EncodeToString]; [reflexivity|].
  rewrite hasByte_append, hexByte_no_comma, IH. reflexivity.
Qed.

Lemma hex_length (src : list byte) :
  String.length (hex_EncodeToString src) = (2 * length src)%nat.
Proof.
  induction src as [|v src IH]; [reflexivity|].
  change (hex_EncodeToString (v :: src))
    with (String (charAt hextable (N.shiftr (Byte.to_N v) 4))
            (String (charAt hextable (N.land (Byte.to_N v) 15))
               (hex_EncodeToString src))).
  cbn [String.length length]. rewrite IH. lia.
Qed.

Example hex_sample :
  hex_EncodeToString ["026"; "043"; "255"; "000"]%byte = "1a2bff00".
Proof. reflexivity. Qed.

Example base64_std_sample :
  base64.EncodeToString base64.StdEncoding ["M"; "a"; "n"; "y"]%byte = "TWFueQ==".
Proof. reflexivity. Qed.

Example base64_rawurl_sample :
  base64.EncodeToString base64.RawURLEncoding ["251"; "255"]%byte = "-_8".
Proof. reflexivity. Qed.

Example Split_samples :
  Split "tubely,clip.mp4" ","%char = ["tubely"; "clip.mp4"] /\
  Split "" ","%char = [""] /\
  Split "a,b,c" ","%char = ["a"; "b"; "c"] /\
  Split "a," ","%char = ["a"; ""].
Proof. repeat split. Qed.

(** ** Signed-URL generator *)

Lemma Split_two_parts (url bucket key : string) :
  Split url ","%char = [bucket; key] ->
  length (Split url ","%char) = 2%nat /\
  nth 0 (Split url ","%char) "" = bucket /\
  nth 1 (Split url ","%char) "" = key.
Proof. intros ->. repeat split. Qed.

(** A location that does not split in two leaves the record alone. *)
Lemma dbVideoToSignedVideo_other_shape
  (presign : string -> string -> Z -> result string) (video : Video) (url : string) :
  VideoURL video = Some url ->
  length (Split url ","%char) ≠ 2%nat ->
  Signer.dbVideoToSignedVideo presign video = (video, None).
Proof.
  intros Hurl Hlen. unfold Signer.dbVideoToSignedVideo. rewrite Hurl. cbv zeta.
  destruct (Nat.eqb_spec (length (Split url ","%char)) 2) as [Heq|Hne];
    [contradiction | reflexivity].
Qed.

(** A failing presigner: the record comes back as it was, with the error. *)
Lemma dbVideoToSignedVideo_presign_error
  (presign : string -> string -> Z -> result string)
  (video : Video) (url bucket key : string) (err : error) :
  VideoURL video = Some url ->
  Split url ","%char = [bucket; key] ->
  presign bucket key Signer.Hour = Err err ->
  Signer.dbVideoToSignedVideo presign video = (video, Some err).
Proof.
  intros Hurl Hsplit Hsign. unfold Signer.dbVideoToSignedVideo.
  rewrite Hurl. cbv zeta. rewrite Hsplit. cbn [length Nat.eqb negb nth].
  unfold Signer.generatePresignedURL. rewrite Hsign. reflexivity.
Qed.

(** C3. A record whose location is absent (nil), or whose stored string does
    not split into exactly two parts at the comma, is returned unchanged and
    without error; a record whose location splits into the two parts
    (bucket, key) is returned with the location replaced by the URL the
    presigner gave for that bucket and key with a validity of one hour. *)
Theorem C3_signed_url_generator
  (presign : string -> string -> Z -> result string) (video : Video) :
  (VideoURL video = None ->
   Signer.dbVideoToSignedVideo presign video = (video, None)) /\
  (forall url, VideoURL video = Some url ->
   length (Split url ","%char) ≠ 2%nat ->
   Signer.dbVideoToSignedVideo presign video = (video, None)) /\
  (forall url bucket key signedURL, VideoURL video = Some url ->
   Split url ","%char = [bucket; key] ->
   presign bucket key (3600 * 1000000000) = Ok signedURL ->
   Signer.dbVideoToSignedVideo presign video
   = (setVideoURL video (Some signedURL), None)).
Proof.
  repeat split.
  - unfold Signer.dbVideoToSignedVideo. intros ->. reflexivity.
  - intros url Hurl Hlen.
    apply (dbVideoToSignedVideo_other_shape presign video url Hurl Hlen).
  - unfold Signer.dbVideoToSignedVideo.
    intros url bucket key signedURL -> Hsplit Hsign. cbv zeta.
    destruct (Split_two_parts _ _ _ Hsplit) as (-> & -> & ->).
    unfold Signer.generatePresignedURL, Signer.Hour. rewrite Hsign. reflexivity.
Qed.

(** The three cases of C3 on records of video-1: no location, a plain URL,
    and a bucket,key pair. *)
Lemma C3_signed_url_generator_witness :
  Signer.dbVideoToSignedVideo demoPresign (demoVideo None)
  = (demoVideo None, None) /\
  Signer.dbVideoToSignedVideo demoPresign
    (demoVideo (Some "https://tubely.s3.us-east-1.amazonaws.com/clip.mp4"))
  = (demoVideo (Some "https://tubely.s3.us-east-1.amazonaws.com/clip.mp4"), None) /\
  Signer.dbVideoToSignedVideo demoPresign (demoVideo (Some "tubely,clip.mp4"))
  = (demoVideo
       (Some "https://tubely.s3.amazonaws.com/clip.mp4?X-Amz-Expires=3600"),
     None).
Proof.
  split; [|split].
  - apply (proj1 (C3_signed_url_generator demoPresign (demoVideo None))).
    reflexivity.
  - apply (proj1 (proj2 (C3_signed_url_generator demoPresign
             (demoVideo (Some "https://tubely.s3.us-east-1.amazonaws.com/clip.mp4"))))
             "https://tubely.s3.us-east-1.amazonaws.com/clip.mp4").
    + reflexivity.
    + vm_compute. lia.
  - apply (proj2 (proj2 (C3_signed_url_generator demoPresign
             (demoVideo (Some "tubely,clip.mp4"))))
             "tubely,clip.mp4" "tubely" "clip.mp4").
    + reflexivity.
    + reflexivity.
    + reflexivity.
Defined.

(** ** Aspect classifier and media prober *)

#[local] Set Warnings "-inexact-float".

(** C8. The classifier is a function of the width and height alone: it
    returns one of the three labels 16:9, 9:16 and other for every input,
    decides by the tolerance 0.1 around 16/9 and around 9/16 on the ratio
    width/height, labels 1920x1080 as 16:9, 1080x1920 as 9:16 and 1000x1000
    as other, and the prober's answer is this label of the first stream's
    width and height whatever else the tool printed. *)
Theorem C8_aspect_classifier :
  (forall w h : Z, Prober.aspectLabel w h ∈ ["16:9"; "9:16"; "other"]) /\
  (forall w h : Z,
     Prober.aspectLabel w h = "16:9" <->
     (PrimFloat.abs (Prober.float64_of_int w / Prober.float64_of_int h - 16 / 9)
        <? Prober.tolerance)%float = true) /\
  (forall w h : Z,
     Prober.aspectLabel w h = "9:16" <->
     (PrimFloat.abs (Prober.float64_of_int w / Prober.float64_of_int h - 16 / 9)
        <? Prober.tolerance)%float = false /\
     (PrimFloat.abs (Prober.float64_of_int w / Prober.float64_of_int h - 9 / 16)
        <? Prober.tolerance)%float = true) /\
  Prober.tolerance = 0.1%float /\
  Prober.aspectLabel 1920 1080 = "16:9" /\
  Prober.aspectLabel 1080 1920 = "9:16" /\
  Prober.aspectLabel 1000 1000 = "other" /\
  (forall exec_Run json_Unmarshal filePath out data s rest,
     exec_Run "ffprobe"
       ["-v"; "error"; "-print_format"; "json"; "-show_streams"; filePath] = Ok out ->
     json_Unmarshal out = Ok data ->
     Prober.Streams data = s :: rest ->
     Prober.getVideoAspectRatio exec_Run json_Unmarshal filePath
     = (Prober.aspectLabel (Prober.Width s) (Prober.Height s), None)).
Proof.
  split; [|split; [|split; [|split; [|split; [|split; [|split]]]]]].
  - intros w h. unfold Prober.aspectLabel. cbv zeta.
    repeat case_match; set_solver.
  - intros w h. unfold Prober.aspectLabel. cbv zeta.
    repeat case_match; split; intros; congruence.
  - intros w h. unfold Prober.aspectLabel. cbv zeta.
    repeat case_match; split; try congruence; try tauto.
    all: intros [? ?]; congruence.
  - vm_compute. reflexivity.
  - vm_compute. reflexivity.
  - vm_compute. reflexivity.
  - vm_compute. reflexivity.
  - intros exec_Run json_Unmarshal filePath out data s rest Hrun Hjson Hstreams.
    unfold Prober.getVideoAspectRatio.
    rewrite Hrun, Hjson, Hstreams. reflexivity.
Qed.

#[local] Set Warnings "inexact-float".

(** The prober's part of C8 on a landscape and on a portrait file. *)
Lemma C8_aspect_classifier_witness :
  Prober.getVideoAspectRatio demoRun demoUnmarshal "landscape.mp4" = ("16:9", None) /\
  Prober.getVideoAspectRatio demoRun demoUnmarshal "portrait.mp4" = ("9:16", None).
Proof.
  destruct C8_aspect_classifier as (_ & _ & _ & _ & _ & _ & _ & Hprobe).
  split.
  - apply (Hprobe demoRun demoUnmarshal "landscape.mp4"
             ["016"; "009"; "001"; "001"]%byte
             (Prober.mkFFProbeOutput [Prober.mkStream 16 9; Prober.mkStream 1 1])
             (Prober.mkStream 16 9) [Prober.mkStream 1 1]); reflexivity.
  - apply (Hprobe demoRun demoUnmarshal "portrait.mp4" ["009"; "016"]%byte
             (Prober.mkFFProbeOutput [Prober.mkStream 9 16])
             (Prober.mkStream 9 16) []); reflexivity.
Defined.

(** C9. When the tool ran and its output decoded but lists no stream, the
    prober returns the error "no streams found in video file" with an empty
    label; in particular not the label that zero width and height would get. *)
Theorem C9_no_streams_is_an_error
  (exec_Run : string -> list string -> result (list byte))
  (json_Unmarshal : list byte -> result Prober.FFProbeOutput)
  (filePath : string) (out : list byte) (data : Prober.FFProbeOutput) :
  exec_Run "ffprobe"
    ["-v"; "error"; "-print_format"; "json"; "-show_streams"; filePath] = Ok out ->
  json_Unmarshal out = Ok data ->
  Prober.Streams data = [] ->
  Prober.getVideoAspectRatio exec_Run json_Unmarshal filePath
  = ("", Some "no streams found in video file") /\
  fst (Prober.getVideoAspectRatio exec_Run json_Unmarshal filePath)
  ≠ Prober.aspectLabel 0 0.
Proof.
  intros Hrun Hjson Hstreams. unfold Prober.getVideoAspectRatio.
  rewrite Hrun, Hjson, Hstreams. split; [reflexivity|].
  vm_compute. discriminate.
Qed.

(** C9 on a file for which the tool lists no stream. *)
Lemma C9_no_streams_is_an_error_witness :
  Prober.getVideoAspectRatio demoRun demoUnmarshal "empty.mp4"
  = ("", Some "no streams found in video file") /\
  fst (Prober.getVideoAspectRatio demoRun demoUnmarshal "empty.mp4")
  ≠ Prober.aspectLabel 0 0.
Proof.
  apply (C9_no_streams_is_an_error demoRun demoUnmarshal "empty.mp4" []
           (Prober.mkFFProbeOutput [])); reflexivity.
Defined.

(** ** Upload handlers *)

(** Proof steps shared by the handler proofs. *)

Ltac unfold_io :=
  unfold GetVideo, os_CreateTemp, os_Create, io_Copy, file_Seek, s3_PutObject,
    UpdateVideo, ThumbnailInline.io_ReadAll.

Ltac world :=
  cbn [db disk objects resp trace defer emit respond respondWithError
       respondWithJSON file_Close os_Remove setDisk setDb setObjects].

Ltac events :=
  unfold events_since; world;
  rewrite <- ?app_assoc; rewrite ?drop_app_length; cbn [app].

(** Every path through a handler: case analysis on each call's outcome,
    entering the deferred blocks. *)
Ltac paths :=
  repeat first [case_match | progress (unfold defer; cbn beta iota)].

(** The same, closing impossible paths with [prune] as soon as they show. *)
Ltac paths_pruned prune :=
  repeat first [prune | progress (unfold defer; cbn beta iota) | case_match].

(** Case analysis of a membership in an explicit list of events. *)
Ltac elem_inv H :=
  repeat (apply elem_of_cons in H as [H|H];
          [try discriminate H; try (injection H as ?; subst)|]);
  try (apply elem_of_nil in H; destruct H).

(** A list ends with its own last [n] elements. *)
Ltac ends_with n :=
  match goal with
  | |- exists before, ?l = before ++ _ =>
    exists (take (length l - n) l); reflexivity
  end.

(** [rand.Read] fills the whole buffer. *)
Lemma rand_Read_length (fate : Fate) (n : nat) (bs : list byte) :
  rand_Read fate n = Ok bs -> length bs = n.
Proof.
  unfold rand_Read. destruct (entropy fate) as [src|]; [|discriminate].
  intros [= <-]. rewrite length_take, length_app, length_replicate. lia.
Qed.

Lemma events_since_refl (w : World) : events_since w w = [].
Proof. unfold events_since. apply drop_all. Qed.

Section VideoProps.
Context `{Collaborators}.

(** A caller who is not the owner is turned away at the ownership check. *)
Lemma video_non_owner cfg fate r w user video :
  authenticatesAs cfg r user -> addresses r w video -> UserID video ≠ user ->
  handlerUploadVideo cfg fate r w
  = respondWithError StatusUnauthorized "You don't own this video" None w.
Proof.
  intros (token & Htok & Hjwt) (videoID & Hid & Hdb) Hown.
  unfold handlerUploadVideo. cbv zeta.
  change (PathValue (setBody r _) "videoID") with (PathValue r "videoID").
  change (Header (setBody r _)) with (Header r).
  rewrite Hid, Htok, Hjwt. unfold GetVideo. rewrite Hdb.
  destruct (decide (UserID video ≠ user)); [reflexivity | contradiction].
Qed.


(** The limit is 1 GiB and not less: a body of at most 2^30 bytes passes
    the installed reader whole. *)
Lemma body_within_limit_is_read r :
  limit (Body r) = None ->
  Z.of_nat (length (bytes (Body r))) <= 2 ^ 30 ->
  drain (MaxBytesReader (Body r) (Z.shiftl 1 30)) = Ok (bytes (Body r)).
Proof.
  intros Hraw Hfits. unfold drain, MaxBytesReader. cbn [limit bytes].
  rewrite Hraw. change (Z.shiftl 1 30) with (2 ^ 30).
  destruct (Z.ltb_spec (2 ^ 30) (Z.of_nat (length (bytes (Body r)))));
    [lia | reflexivity].
Qed.


(** C5. In every run of the video handler that created a temporary file,
    whatever happened afterwards, the run ends by closing that file, then
    removing it, then closing the uploaded part, and the file does not exist
    when the handler has returned. *)
Theorem C5_temp_file_closed_then_removed cfg fate r w tmp :
  EvCreateTemp tmp ∈ events_since w (handlerUploadVideo cfg fate r w) ->
  (exists before,
     events_since w (handlerUploadVideo cfg fate r w)
     = before ++ [EvClose (OnDisk tmp); EvRemove tmp; EvClose UploadPart]) /\
  disk (handlerUploadVideo cfg fate r w) !! tmp = None.
Proof.
  unfold handlerUploadVideo. cbv zeta. unfold_io.
  repeat case_match; events; intros Hin; elem_inv Hin.
  all: split; [ends_with 3%nat | world; apply lookup_delete_eq].
Qed.


End VideoProps.

(** C5 on an upload by the owner during which the metadata store fails. *)
Lemma C5_temp_file_closed_then_removed_witness :
  EvCreateTemp "/tmp/tubely-upload-1.mp4"
  ∈ events_since demoWorld
      (@handlerUploadVideo demoLib demoCfg storeDownFate
         (demoRequest "alice" "video" "video/mp4" ["001"; "002"]%byte) demoWorld) /\
  (exists before,
     events_since demoWorld
       (@handlerUploadVideo demoLib demoCfg storeDownFate
          (demoRequest "alice" "video" "video/mp4" ["001"; "002"]%byte) demoWorld)
     = before ++ [EvClose (OnDisk "/tmp/tubely-upload-1.mp4");
                  EvRemove "/tmp/tubely-upload-1.mp4"; EvClose UploadPart]) /\
  disk (@handlerUploadVideo demoLib demoCfg storeDownFate
          (demoRequest "alice" "video" "video/mp4" ["001"; "002"]%byte) demoWorld)
    !! "/tmp/tubely-upload-1.mp4" = None.
Proof.
  assert (Hin : EvCreateTemp "/tmp/tubely-upload-1.mp4"
    ∈ events_since demoWorld
        (@handlerUploadVideo demoLib demoCfg storeDownFate
           (demoRequest "alice" "video" "video/mp4" ["001"; "002"]%byte) demoWorld)).
  { vm_compute. apply list_elem_of_here. }
  split; [exact Hin|].
  exact (@C5_temp_file_closed_then_removed demoLib demoCfg storeDownFate
           (demoRequest "alice" "video" "video/mp4" ["001"; "002"]%byte)
           demoWorld "/tmp/tubely-upload-1.mp4" Hin).
Defined.


Section VideoTypeAndLocation.
Context `{Collaborators}.

(** C4. An upload that reached the type check (identified, authenticated,
    by the owner, with a file in the video field) and whose declared media
    type does not parse to exactly video/mp4 is answered with a 400 and
    nothing else happens: no temporary file, no object, no store update. And
    no upload at all is answered with success unless its declared media type
    is exactly video/mp4. *)
Theorem C4_only_mp4_is_accepted cfg fate r w :
  (forall user video file,
     authenticatesAs cfg r user -> addresses r w video -> UserID video = user ->
     videoPart r = Ok file ->
     declaredType file ≠ Ok "video/mp4" ->
     exists msg,
       resp (handlerUploadVideo cfg fate r w)
       = Some (RespError StatusBadRequest msg) /\
       events_since w (handlerUploadVideo cfg fate r w)
       = [EvRespond (RespError StatusBadRequest msg); EvClose UploadPart] /\
       untouched w (handlerUploadVideo cfg fate r w)) /\
  (forall code video',
     resp (handlerUploadVideo cfg fate r w) = Some (RespJSON code video') ->
     exists file, videoPart r = Ok file /\ declaredType file = Ok "video/mp4").
Proof.
  split.
  - intros user video file (token & Htok & Hjwt) (videoID & Hid & Hdb) Hown
      Hform Htype.
    unfold handlerUploadVideo. cbv zeta.
    change (PathValue (setBody r _) "videoID") with (PathValue r "videoID").
    change (Header (setBody r _)) with (Header r).
    rewrite Hid, Htok, Hjwt. unfold GetVideo. rewrite Hdb.
    destruct (decide (UserID video ≠ user)); [contradiction|].
    unfold videoPart in Hform. rewrite Hform.
    unfold declaredType in Htype.
    destruct (mime_ParseMediaType _) as [[mediaType params]|err].
    + destruct (decide (mediaType ≠ "video/mp4")) as [Hne|Heq].
      * eexists. events. repeat split.
      * exfalso. apply Htype. f_equal.
        destruct (decide (mediaType = "video/mp4")); [assumption|contradiction].
    + eexists. events. repeat split.
  - intros code video'. unfold handlerUploadVideo, videoPart, declaredType.
    cbv zeta. unfold_io.
    repeat case_match; world; intros Hresp; try discriminate Hresp.
    all: eexists; split; [reflexivity|].
    all: simplify_eq.
    all: match goal with
         | Hm : mime_ParseMediaType _ = _ |- _ => rewrite Hm
         end.
    all: f_equal.
    all: match goal with
         | Hn : ¬ ?s ≠ _ |- ?s = _ =>
           destruct (decide (s = "video/mp4")); [assumption|contradiction]
         end.
Qed.

(** C1 (as the code has it). Every record the video handler hands to the
    metadata store has as its video location the URL
    https://<bucket>.s3.<region>.amazonaws.com/<key>, where the key is the
    lower-case hex form of 32 random bytes followed by .mp4; a successful
    update stores exactly that record under its id. When neither the bucket
    nor the region holds a comma, the location holds none either: the
    signed-URL generator's split gives back the whole location as a single
    part, and the generator returns the record unchanged without error. *)
Theorem C1_video_location_is_a_url cfg fate r w video :
  EvUpdateVideo video ∈ events_since w (handlerUploadVideo cfg fate r w) ->
  exists randomBytes url,
    length randomBytes = 32%nat /\
    url = "https://" +:+ s3Bucket cfg +:+ ".s3." +:+ s3Region cfg
            +:+ ".amazonaws.com/" +:+ hex_EncodeToString randomBytes +:+ ".mp4" /\
    VideoURL video = Some url /\
    (updateVideo fate = None ->
     db (handlerUploadVideo cfg fate r w) !! ID video = Some video) /\
    (hasByte ","%char (s3Bucket cfg) = false ->
     hasByte ","%char (s3Region cfg) = false ->
     Split url ","%char = [url] /\
     forall presign, Signer.dbVideoToSignedVideo presign video = (video, None)).
Proof.
  unfold handlerUploadVideo. cbv zeta. unfold_io.
  repeat case_match; events; intros Hin; elem_inv Hin; simplify_eq.
  all: match goal with
       | |- context [hex_EncodeToString ?bs] => exists bs
       end.
  all: eexists; split; [eapply rand_Read_length; eassumption|].
  all: split; [reflexivity|]. 
  all: split; [reflexivity|].
  all: split; [world; try (intros; apply lookup_insert_eq); try congruence|].
  all: intros Hbucket Hregion.
  all: match goal with
       | |- Split ?u _ = _ /\ _ =>
         assert (Hclean : hasByte ","%char u = false)
       end.
  all: try (rewrite !hasByte_append, Hbucket, Hregion, hex_no_comma; reflexivity).
  all: split; [apply Split_no_sep, Hclean|].
  all: intros presign;
    eapply dbVideoToSignedVideo_other_shape; [reflexivity|];
    rewrite (Split_no_sep _ _ Hclean); discriminate.
Qed.

End VideoTypeAndLocation.

(** C4 on the owner's upload declared as video/quicktime. *)
Lemma C4_only_mp4_is_accepted_witness :
  @videoPart demoLib (demoRequest "alice" "video" "video/quicktime" ["001"; "002"]%byte)
  = Ok (mkPart "upload" {[ "Content-Type" := ["video/quicktime"] ]} ["001"; "002"]%byte) /\
  @declaredType demoLib
    (mkPart "upload" {[ "Content-Type" := ["video/quicktime"] ]} ["001"; "002"]%byte)
  ≠ Ok "video/mp4" /\
  exists msg,
    resp (@handlerUploadVideo demoLib demoCfg fairFate
            (demoRequest "alice" "video" "video/quicktime" ["001"; "002"]%byte)
            demoWorld)
    = Some (RespError StatusBadRequest msg) /\
    events_since demoWorld
      (@handlerUploadVideo demoLib demoCfg fairFate
         (demoRequest "alice" "video" "video/quicktime" ["001"; "002"]%byte)
         demoWorld)
    = [EvRespond (RespError StatusBadRequest msg); EvClose UploadPart] /\
    untouched demoWorld
      (@handlerUploadVideo demoLib demoCfg fairFate
         (demoRequest "alice" "video" "video/quicktime" ["001"; "002"]%byte)
         demoWorld).
Proof.
  split; [reflexivity|]. split; [vm_compute; discriminate|].
  apply (proj1 (@C4_only_mp4_is_accepted demoLib demoCfg fairFate
                  (demoRequest "alice" "video" "video/quicktime" ["001"; "002"]%byte)
                  demoWorld)
           "alice" (demoVideo None)
           (mkPart "upload" {[ "Content-Type" := ["video/quicktime"] ]}
                   ["001"; "002"]%byte)).
  - exists "alice". split; reflexivity.
  - exists "video-1". split; reflexivity.
  - reflexivity.
  - reflexivity.
  - vm_compute. discriminate.
Defined.

(** C1 fails on the code: after a successful upload to the bucket tubely the
    stored location is an https URL; splitting it at the comma gives one
    part, not the bucket and the key. *)
Lemma C1_counterexample :
  db (@handlerUploadVideo demoLib demoCfg fairFate
        (demoRequest "alice" "video" "video/mp4" ["001"; "002"]%byte) demoWorld)
    !! "video-1" = Some storedVideo /\
  VideoURL storedVideo
  = Some ("https://tubely.s3.us-east-1.amazonaws.com/"
          +:+ "0000000000000000000000000000000000000000000000000000000000000000.mp4") /\
  Split ("https://tubely.s3.us-east-1.amazonaws.com/"
         +:+ "0000000000000000000000000000000000000000000000000000000000000000.mp4")
        ","%char
  ≠ ["tubely";
     "0000000000000000000000000000000000000000000000000000000000000000.mp4"] /\
  length (Split ("https://tubely.s3.us-east-1.amazonaws.com/"
         +:+ "0000000000000000000000000000000000000000000000000000000000000000.mp4")
        ","%char) = 1%nat.
Proof.
  split; [vm_compute; reflexivity|]. split; [reflexivity|].
  split; vm_compute; [discriminate | reflexivity].
Qed.

(** C1 on the owner's successful upload to the bucket tubely. *)
Lemma C1_video_location_is_a_url_witness :
  EvUpdateVideo storedVideo
  ∈ events_since demoWorld
      (@handlerUploadVideo demoLib demoCfg fairFate
         (demoRequest "alice" "video" "video/mp4" ["001"; "002"]%byte) demoWorld) /\
  exists randomBytes url,
    length randomBytes = 32%nat /\
    url = "https://" +:+ s3Bucket demoCfg +:+ ".s3." +:+ s3Region demoCfg
            +:+ ".amazonaws.com/" +:+ hex_EncodeToString randomBytes +:+ ".mp4" /\
    VideoURL storedVideo = Some url /\
    (updateVideo fairFate = None ->
     db (@handlerUploadVideo demoLib demoCfg fairFate
           (demoRequest "alice" "video" "video/mp4" ["001"; "002"]%byte) demoWorld)
       !! ID storedVideo = Some storedVideo) /\
    (hasByte ","%char (s3Bucket demoCfg) = false ->
     hasByte ","%char (s3Region demoCfg) = false ->
     Split url ","%char = [url] /\
     forall presign,
       Signer.dbVideoToSignedVideo presign storedVideo = (storedVideo, None)).
Proof.
  assert (Hin : EvUpdateVideo storedVideo
    ∈ events_since demoWorld
        (@handlerUploadVideo demoLib demoCfg fairFate
           (demoRequest "alice" "video" "video/mp4" ["001"; "002"]%byte) demoWorld)).
  { vm_compute. do 4 apply list_elem_of_further. apply list_elem_of_here. }
  split; [exact Hin|].
  exact (@C1_video_location_is_a_url demoLib demoCfg fairFate
           (demoRequest "alice" "video" "video/mp4" ["001"; "002"]%byte)
           demoWorld storedVideo Hin).
Defined.

Section ThumbnailProps.
Context `{Collaborators}.

(** C2 (as the code has it). When the caller authenticates as a user who is
    not the owner of the record the request names, no handler changes the
    metadata store, the local files or the object store, and each answers
    with an error envelope, which carries no record. The video handler
    answers 401. A thumbnail handler answers 401 once the request passed the
    checks that handler makes before it looks at the owner: the form has a
    thumbnail file and, for the variant storing under the video id, its
    Content-Type is one of the four allowed; for the variant storing under
    a random key, its media type parses to image/jpeg or image/png; for the
    inline variant, its bytes could be read. *)
Theorem C2_non_owner_changes_nothing cfg fate r w user video :
  authenticatesAs cfg r user -> addresses r w video -> UserID video ≠ user ->
  (resp (handlerUploadVideo cfg fate r w)
   = Some (RespError StatusUnauthorized "You don't own this video") /\
   untouched w (handlerUploadVideo cfg fate r w)) /\
  (forall h,
     h ∈ [ThumbnailByVideoID.handlerUploadThumbnail;
          ThumbnailRandomKey.handlerUploadThumbnail;
          ThumbnailInline.handlerUploadThumbnail] ->
     untouched w (h cfg fate r w) /\
     exists code msg, resp (h cfg fate r w) = Some (RespError code msg)) /\
  (forall file, thumbnailPart r = Ok file ->
     (Header_Get (PartHeader file) "Content-Type"
        ∈ ["image/jpeg"; "image/png"; "image/gif"; "application/pdf"] ->
      resp (ThumbnailByVideoID.handlerUploadThumbnail cfg fate r w)
      = Some (RespError StatusUnauthorized "You don't own this video")) /\
     (declaredType file ∈ [Ok "image/jpeg"; Ok "image/png"] ->
      resp (ThumbnailRandomKey.handlerUploadThumbnail cfg fate r w)
      = Some (RespError StatusUnauthorized "You don't own this video")) /\
     (readAll fate = None ->
      resp (ThumbnailInline.handlerUploadThumbnail cfg fate r w)
      = Some (RespError StatusUnauthorized "You don't own this video"))).
Proof.
  intros Hauth Haddr Hown. split; [|split].
  - rewrite (video_non_owner cfg fate r w user video Hauth Haddr Hown).
    repeat split.
  - destruct Hauth as (token & Htok & Hjwt). destruct Haddr as (videoID & Hid & Hdb).
    intros h Hh. elem_inv Hh; subst h.
    all: unfold ThumbnailByVideoID.handlerUploadThumbnail,
           ThumbnailRandomKey.handlerUploadThumbnail,
           ThumbnailInline.handlerUploadThumbnail; cbv zeta.
    all: rewrite Hid, Htok, Hjwt; unfold_io.
    all: paths_pruned ltac:(first [contradiction | rewrite Hdb]); world.
    all: split; [repeat split | do 2 eexists; reflexivity].
  - destruct Hauth as (token & Htok & Hjwt). destruct Haddr as (videoID & Hid & Hdb).
    intros file Hpart. unfold thumbnailPart in Hpart.
    destruct (ParseMultipartForm r (Z.shiftl 10 20)) as [r'|] eqn:Hparse;
      [|discriminate].
    split; [|split].
    + intros Htype.
      unfold ThumbnailByVideoID.handlerUploadThumbnail. cbv zeta.
      rewrite Hid, Htok, Hjwt, Hparse, Hpart. unfold_io.
      elem_inv Htype.
      all: match goal with Ht : Header_Get _ _ = _ |- _ => rewrite Ht end.
      all: paths_pruned ltac:(first [contradiction | discriminate | rewrite Hdb]);
        reflexivity.
    + intros Htype. unfold declaredType in Htype.
      unfold ThumbnailRandomKey.handlerUploadThumbnail. cbv zeta.
      rewrite Hid, Htok, Hjwt, Hparse, Hpart. unfold_io.
      destruct (mime_ParseMediaType _) as [[mediaType params]|];
        elem_inv Htype.
      all: paths_pruned ltac:(first [contradiction | discriminate | rewrite Hdb]);
        reflexivity.
    + intros Hread.
      unfold ThumbnailInline.handlerUploadThumbnail. cbv zeta.
      rewrite Hid, Htok, Hjwt, Hparse, Hpart. unfold_io. rewrite Hread.
      paths_pruned ltac:(first [contradiction | rewrite Hdb]); reflexivity.
Qed.

End ThumbnailProps.

(** C2 fails on the thumbnail handlers: mallory, who does not own video-1,
    uploads a text file as its thumbnail and is answered 400 for the file
    type, not 401: the type check comes before the ownership check. *)
Lemma C2_counterexample :
  @authenticatesAs demoLib demoCfg
    (demoRequest "mallory" "thumbnail" "text/plain" ["001"; "002"]%byte) "mallory" /\
  @addresses demoLib
    (demoRequest "mallory" "thumbnail" "text/plain" ["001"; "002"]%byte)
    demoWorld (demoVideo None) /\
  UserID (demoVideo None) ≠ "mallory" /\
  resp (@ThumbnailByVideoID.handlerUploadThumbnail demoLib demoCfg fairFate
          (demoRequest "mallory" "thumbnail" "text/plain" ["001"; "002"]%byte)
          demoWorld)
  = Some (RespError StatusBadRequest "Unsupported file type") /\
  resp (@ThumbnailRandomKey.handlerUploadThumbnail demoLib demoCfg fairFate
          (demoRequest "mallory" "thumbnail" "text/plain" ["001"; "002"]%byte)
          demoWorld)
  = Some (RespError StatusBadRequest
            "File type not allowed. Only JPEG and PNG images are supported.") /\
  resp (@ThumbnailInline.handlerUploadThumbnail demoLib demoCfg fairFate
          (demoRequest "mallory" "file" "image/png" ["001"; "002"]%byte)
          demoWorld)
  = Some (RespError StatusBadRequest "Error getting thumbnail from form").
Proof.
  split; [exists "mallory"; split; reflexivity|].
  split; [exists "video-1"; split; reflexivity|].
  split; [vm_compute; discriminate|].
  repeat split; vm_compute; reflexivity.
Qed.

(** C2 on mallory's upload to video-1, which alice owns. *)
Lemma C2_non_owner_changes_nothing_witness :
  @authenticatesAs demoLib demoCfg
    (demoRequest "mallory" "thumbnail" "image/png" ["001"; "002"]%byte) "mallory" /\
  @addresses demoLib
    (demoRequest "mallory" "thumbnail" "image/png" ["001"; "002"]%byte)
    demoWorld (demoVideo None) /\
  UserID (demoVideo None) ≠ "mallory" /\
  resp (@handlerUploadVideo demoLib demoCfg fairFate
          (demoRequest "mallory" "thumbnail" "image/png" ["001"; "002"]%byte)
          demoWorld)
  = Some (RespError StatusUnauthorized "You don't own this video") /\
  untouched demoWorld
    (@handlerUploadVideo demoLib demoCfg fairFate
       (demoRequest "mallory" "thumbnail" "image/png" ["001"; "002"]%byte)
       demoWorld).
Proof.
  assert (Hauth : @authenticatesAs demoLib demoCfg
    (demoRequest "mallory" "thumbnail" "image/png" ["001"; "002"]%byte) "mallory").
  { exists "mallory". split; reflexivity. }
  assert (Haddr : @addresses demoLib
    (demoRequest "mallory" "thumbnail" "image/png" ["001"; "002"]%byte)
    demoWorld (demoVideo None)).
  { exists "video-1". split; reflexivity. }
  assert (Hown : UserID (demoVideo None) ≠ "mallory").
  { vm_compute. discriminate. }
  split; [exact Hauth|]. split; [exact Haddr|]. split; [exact Hown|].
  exact (proj1 (@C2_non_owner_changes_nothing demoLib demoCfg fairFate
                  (demoRequest "mallory" "thumbnail" "image/png" ["001"; "002"]%byte)
                  demoWorld "mallory" (demoVideo None) Hauth Haddr Hown)).
Defined.

Section ThumbnailStoreFailure.
Context `{Collaborators}.

(** C7. In both thumbnail handlers that write a local file: when the
    metadata store refuses the update, the run is exactly: create the file,
    copy the upload into it, attempt the update, remove the file, answer
    500, close the file, close the upload. The file is removed before the
    error is sent, it does not exist when the handler has returned, and the
    store is as it was. *)
Theorem C7_local_file_removed_when_update_fails cfg fate r w video err :
  updateVideo fate = Some err ->
  (EvUpdateVideo video
   ∈ events_since w (ThumbnailByVideoID.handlerUploadThumbnail cfg fate r w) ->
   exists path,
     events_since w (ThumbnailByVideoID.handlerUploadThumbnail cfg fate r w)
     = [EvCreate path; EvCopy path; EvUpdateVideo video; EvRemove path;
        EvRespond (RespError StatusInternalServerError "Couldn't update video");
        EvClose (OnDisk path); EvClose UploadPart] /\
     disk (ThumbnailByVideoID.handlerUploadThumbnail cfg fate r w) !! path = None /\
     db (ThumbnailByVideoID.handlerUploadThumbnail cfg fate r w) = db w /\
     resp (ThumbnailByVideoID.handlerUploadThumbnail cfg fate r w)
     = Some (RespError StatusInternalServerError "Couldn't update video")) /\
  (EvUpdateVideo video
   ∈ events_since w (ThumbnailRandomKey.handlerUploadThumbnail cfg fate r w) ->
   exists path,
     events_since w (ThumbnailRandomKey.handlerUploadThumbnail cfg fate r w)
     = [EvCreate path; EvCopy path; EvUpdateVideo video; EvRemove path;
        EvRespond (RespError StatusInternalServerError "Couldn't update video");
        EvClose (OnDisk path); EvClose UploadPart] /\
     disk (ThumbnailRandomKey.handlerUploadThumbnail cfg fate r w) !! path = None /\
     db (ThumbnailRandomKey.handlerUploadThumbnail cfg fate r w) = db w /\
     resp (ThumbnailRandomKey.handlerUploadThumbnail cfg fate r w)
     = Some (RespError StatusInternalServerError "Couldn't update video")).
Proof.
  intros Hfail. split.
  - unfold ThumbnailByVideoID.handlerUploadThumbnail. cbv zeta.
    unfold_io. rewrite Hfail.
    paths; events; intros Hin; elem_inv Hin.
    all: eexists; split; [reflexivity|]; world.
    all: split; [apply lookup_delete_eq|]; split; reflexivity.
  - unfold ThumbnailRandomKey.handlerUploadThumbnail. cbv zeta.
    unfold_io. rewrite Hfail.
    paths; events; intros Hin; elem_inv Hin.
    all: eexists; split; [reflexivity|]; world.
    all: split; [apply lookup_delete_eq|]; split; reflexivity.
Qed.

End ThumbnailStoreFailure.

(** C7 on the owner's PNG thumbnail while the metadata store is down. *)
Lemma C7_local_file_removed_when_update_fails_witness :
  updateVideo storeDownFate = Some "database is locked" /\
  EvUpdateVideo (thumbVideo "http://localhost:8091/assets/video-1.png")
  ∈ events_since demoWorld
      (@ThumbnailByVideoID.handlerUploadThumbnail demoLib demoCfg storeDownFate
         (demoRequest "alice" "thumbnail" "image/png" ["001"; "002"]%byte)
         demoWorld) /\
  exists path,
    events_since demoWorld
      (@ThumbnailByVideoID.handlerUploadThumbnail demoLib demoCfg storeDownFate
         (demoRequest "alice" "thumbnail" "image/png" ["001"; "002"]%byte)
         demoWorld)
    = [EvCreate path; EvCopy path;
       EvUpdateVideo (thumbVideo "http://localhost:8091/assets/video-1.png");
       EvRemove path;
       EvRespond (RespError StatusInternalServerError "Couldn't update video");
       EvClose (OnDisk path); EvClose UploadPart] /\
    disk (@ThumbnailByVideoID.handlerUploadThumbnail demoLib demoCfg storeDownFate
            (demoRequest "alice" "thumbnail" "image/png" ["001"; "002"]%byte)
            demoWorld) !! path = None /\
    db (@ThumbnailByVideoID.handlerUploadThumbnail demoLib demoCfg storeDownFate
          (demoRequest "alice" "thumbnail" "image/png" ["001"; "002"]%byte)
          demoWorld) = db demoWorld /\
    resp (@ThumbnailByVideoID.handlerUploadThumbnail demoLib demoCfg storeDownFate
            (demoRequest "alice" "thumbnail" "image/png" ["001"; "002"]%byte)
            demoWorld)
    = Some (RespError StatusInternalServerError "Couldn't update video").
Proof.
  assert (Hin : EvUpdateVideo (thumbVideo "http://localhost:8091/assets/video-1.png")
    ∈ events_since demoWorld
        (@ThumbnailByVideoID.handlerUploadThumbnail demoLib demoCfg storeDownFate
           (demoRequest "alice" "thumbnail" "image/png" ["001"; "002"]%byte)
           demoWorld)).
  { vm_compute. do 2 apply list_elem_of_further. apply list_elem_of_here. }
  split; [reflexivity|]. split; [exact Hin|].
  exact (proj1 (@C7_local_file_removed_when_update_fails demoLib demoCfg
                  storeDownFate
                  (demoRequest "alice" "thumbnail" "image/png" ["001"; "002"]%byte)
                  demoWorld (thumbVideo "http://localhost:8091/assets/video-1.png")
                  "database is locked" eq_refl) Hin).
Defined.

Section InlineThumbnail.
Context `{Collaborators}.

(** C10. In the inline variant, for every string [contentType] that the
    thumbnail part declares: once the request is identified, authenticated,
    by the owner, has a thumbnail file and its bytes were read, the handler
    submits the record with the thumbnail location
    data:<contentType>;base64,<standard base64 of the bytes>, the declared
    string embedded as it came; the answer is 200 with that record when the
    store accepts it and 500 when the store fails, so never a rejection for
    the content type. *)
Theorem C10_inline_thumbnail_takes_any_type
  cfg fate r w user video file (contentType : string) :
  authenticatesAs cfg r user -> addresses r w video -> UserID video = user ->
  thumbnailPart r = Ok file ->
  Header_Get (PartHeader file) "Content-Type" = contentType ->
  readAll fate = None ->
  EvUpdateVideo
    (setThumbnailURL video
       (Some ("data:" +:+ contentType +:+ ";base64,"
              +:+ base64.EncodeToString base64.StdEncoding (content file))))
  ∈ events_since w (ThumbnailInline.handlerUploadThumbnail cfg fate r w) /\
  (updateVideo fate = None ->
   resp (ThumbnailInline.handlerUploadThumbnail cfg fate r w)
   = Some (RespJSON StatusOK
       (setThumbnailURL video
          (Some ("data:" +:+ contentType +:+ ";base64,"
                 +:+ base64.EncodeToString base64.StdEncoding (content file))))) /\
   db (ThumbnailInline.handlerUploadThumbnail cfg fate r w) !! ID video
   = Some (setThumbnailURL video
       (Some ("data:" +:+ contentType +:+ ";base64,"
              +:+ base64.EncodeToString base64.StdEncoding (content file))))) /\
  (updateVideo fate ≠ None ->
   resp (ThumbnailInline.handlerUploadThumbnail cfg fate r w)
   = Some (RespError StatusInternalServerError "Couldn't update video")).
Proof.
  intros (token & Htok & Hjwt) (videoID & Hid & Hdb) Hown Hpart Htype Hread.
  unfold thumbnailPart in Hpart.
  destruct (ParseMultipartForm r (Z.shiftl 10 20)) as [r'|] eqn:Hparse;
    [|discriminate].
  unfold ThumbnailInline.handlerUploadThumbnail. cbv zeta.
  rewrite Hid, Htok, Hjwt, Hparse, Hpart, Htype. unfold_io. rewrite Hread.
  unfold defer. cbn beta iota. rewrite Hdb.
  destruct (decide (UserID video ≠ user)) as [Hne|_]; [contradiction|].
  destruct (updateVideo fate) as [err|]; events.
  - split; [apply list_elem_of_here|]. split; [discriminate|reflexivity].
  - split; [apply list_elem_of_here|]. split; [|congruence].
    intros _. split; [reflexivity|]. apply lookup_insert_eq.
Qed.

End InlineThumbnail.

(** C10 on a thumbnail whose declared type is no media type at all. *)
Lemma C10_inline_thumbnail_takes_any_type_witness :
  resp (@ThumbnailInline.handlerUploadThumbnail demoLib demoCfg fairFate
          (demoRequest "alice" "thumbnail" "not/a-type; at all" ["001"; "002"]%byte)
          demoWorld)
  = Some (RespJSON StatusOK (thumbVideo "data:not/a-type; at all;base64,AQI=")).
Proof.
  refine (proj1 (proj1 (proj2 (@C10_inline_thumbnail_takes_any_type demoLib
            demoCfg fairFate
            (demoRequest "alice" "thumbnail" "not/a-type; at all" ["001"; "002"]%byte)
            demoWorld "alice" (demoVideo None)
            (mkPart "upload" {[ "Content-Type" := ["not/a-type; at all"] ]}
                    ["001"; "002"]%byte)
            "not/a-type; at all" _ _ _ _ _ _)) _)).
  - exists "alice". split; reflexivity.
  - exists "video-1". split; reflexivity.
  - reflexivity.
  - reflexivity.
  - reflexivity.
  - reflexivity.
  - reflexivity.
Defined.

(** * Further properties *)

(** ** The location decoder *)

(** Splitting gives one piece more than the separator occurs. *)
Lemma Split_length (s : string) (sep : ascii) :
  length (Split s sep) = S (countByte sep s).
Proof.
  induction s as [|c s IH]; [reflexivity|].
  cbn [Split countByte]. destruct (Ascii.eqb c sep).
  - cbn [length]. rewrite IH. reflexivity.
  - destruct (Split s sep) as [|p ps] eqn:Hs.
    + exfalso. apply (Split_nonempty s sep Hs).
    + cbn [length] in *. rewrite IH. reflexivity.
Qed.

(** Joining the pieces with the separator gives the string back. *)
Lemma Split_concat (s : string) (sep : ascii) :
  String.concat (String sep EmptyString) (Split s sep) = s.
Proof.
  induction s as [|c s IH]; [reflexivity|].
  cbn [Split]. destruct (Ascii.eqb_spec c sep) as [->|Hne].
  - destruct (Split s sep) as [|p ps] eqn:Hs.
    + exfalso. apply (Split_nonempty s sep Hs).
    + change (String.concat (String sep EmptyString) (EmptyString :: p :: ps))
        with (String sep (String.concat (String sep EmptyString) (p :: ps))).
      rewrite IH. reflexivity.
  - destruct (Split s sep) as [|p ps] eqn:Hs.
    + exfalso. apply (Split_nonempty s sep Hs).
    + destruct ps as [|q qs].
      * cbn [String.concat] in *. rewrite IH. reflexivity.
      * change (String.concat (String sep EmptyString) (String c p :: q :: qs))
          with (String c (String.concat (String sep EmptyString) (p :: q :: qs))).
        rewrite IH. reflexivity.
Qed.

(** No piece of a split holds the separator. *)
Lemma Split_pieces_clean (s : string) (sep : ascii) :
  Forall (fun p => hasByte sep p = false) (Split s sep).
Proof.
  induction s as [|c s IH]; [repeat constructor|].
  cbn [Split]. destruct (Ascii.eqb c sep) eqn:Hc.
  - constructor; [reflexivity | exact IH].
  - destruct (Split s sep) as [|p ps]; [repeat constructor; cbn; rewrite Hc; reflexivity|].
    inversion IH as [|? ? Hp Hps]; subst.
    constructor; [cbn; rewrite Hc, Hp; reflexivity | exact Hps].
Qed.

(** X1. Round trip of the location encoding the generator decodes: for a
    bucket and a key without comma, the record whose location is
    bucket,key is signed for exactly that bucket and key with a validity of
    one hour: the outcome is the presigner's URL in the location field, or
    the presigner's error with the record as it was. *)
Theorem X1_location_round_trip
  (presign : string -> string -> Z -> result string)
  (video : Video) (bucket key : string) :
  hasByte ","%char bucket = false ->
  hasByte ","%char key = false ->
  VideoURL video = Some (bucket +:+ "," +:+ key) ->
  Signer.dbVideoToSignedVideo presign video
  = match presign bucket key (3600 * 1000000000) with
    | Ok signedURL => (setVideoURL video (Some signedURL), None)
    | Err err => (video, Some err)
    end.
Proof.
  intros Hbucket Hkey Hurl.
  pose proof (Split_join bucket key ","%char Hbucket Hkey) as Hsplit.
  change (bucket +:+ String ","%char key) with (bucket +:+ "," +:+ key) in Hsplit.
  unfold Signer.dbVideoToSignedVideo. rewrite Hurl. cbv zeta. rewrite Hsplit.
  cbn [length Nat.eqb negb nth]. unfold Signer.generatePresignedURL, Signer.Hour.
  destruct (presign bucket key (3600 * 1000000000)); reflexivity.
Qed.

(** X1 on the location tubely,clip.mp4, with a presigner that signs and
    with one that refuses. *)
Lemma X1_location_round_trip_witness :
  Signer.dbVideoToSignedVideo demoPresign (demoVideo (Some "tubely,clip.mp4"))
  = (demoVideo (Some "https://tubely.s3.amazonaws.com/clip.mp4?X-Amz-Expires=3600"),
     None) /\
  Signer.dbVideoToSignedVideo failingPresign (demoVideo (Some "tubely,clip.mp4"))
  = (demoVideo (Some "tubely,clip.mp4"), Some "presign: no credentials").
Proof.
  split.
  - exact (X1_location_round_trip demoPresign (demoVideo (Some "tubely,clip.mp4"))
             "tubely" "clip.mp4" eq_refl eq_refl eq_refl).
  - exact (X1_location_round_trip failingPresign (demoVideo (Some "tubely,clip.mp4"))
             "tubely" "clip.mp4" eq_refl eq_refl eq_refl).
Defined.

(** X2. The generator signs only locations with exactly one comma. A
    location with no comma or with two or more (a key that itself holds a
    comma, say) is returned unchanged and without error, whatever the
    presigner would do; a location with exactly one comma is the join of a
    comma-free bucket and key, and those two are what the presigner is
    asked about. *)
Theorem X2_signs_exactly_one_comma
  (presign : string -> string -> Z -> result string) (video : Video) (url : string) :
  VideoURL video = Some url ->
  (countByte ","%char url ≠ 1%nat ->
   Signer.dbVideoToSignedVideo presign video = (video, None)) /\
  (countByte ","%char url = 1%nat ->
   exists bucket key,
     url = bucket +:+ "," +:+ key /\
     hasByte ","%char bucket = false /\ hasByte ","%char key = false /\
     Signer.dbVideoToSignedVideo presign video
     = match presign bucket key (3600 * 1000000000) with
       | Ok signedURL => (setVideoURL video (Some signedURL), None)
       | Err err => (video, Some err)
       end).
Proof.
  intros Hurl. split.
  - intros Hcount.
    apply (dbVideoToSignedVideo_other_shape presign video url Hurl).
    rewrite Split_length. lia.
  - intros Hcount.
    pose proof (Split_length url ","%char) as Hlen. rewrite Hcount in Hlen.
    pose proof (Split_concat url ","%char) as Hjoin.
    pose proof (Split_pieces_clean url ","%char) as Hclean.
    destruct (Split url ","%char) as [|bucket [|key [|? ?]]] eqn:Hsplit;
      try discriminate Hlen.
    exists bucket, key.
    apply Forall_cons in Hclean as [Hb Hrest].
    apply Forall_cons in Hrest as [Hk _].
    split; [symmetry; exact Hjoin|]. split; [exact Hb|]. split; [exact Hk|].
    unfold Signer.dbVideoToSignedVideo. rewrite Hurl. cbv zeta. rewrite Hsplit.
    cbn [length Nat.eqb negb nth]. unfold Signer.generatePresignedURL, Signer.Hour.
    destruct (presign bucket key (3600 * 1000000000)); reflexivity.
Qed.

(** X2 on a location whose key holds a comma: it is left unsigned. *)
Lemma X2_signs_exactly_one_comma_witness :
  countByte ","%char "tubely,clips,2024.mp4" ≠ 1%nat /\
  Signer.dbVideoToSignedVideo demoPresign (demoVideo (Some "tubely,clips,2024.mp4"))
  = (demoVideo (Some "tubely,clips,2024.mp4"), None).
Proof.
  assert (Hcount : countByte ","%char "tubely,clips,2024.mp4" ≠ 1%nat)
    by (vm_compute; lia).
  split; [exact Hcount|].
  exact (proj1 (X2_signs_exactly_one_comma demoPresign
                  (demoVideo (Some "tubely,clips,2024.mp4"))
                  "tubely,clips,2024.mp4" eq_refl) Hcount).
Defined.

(** X3. Whatever the record and the presigner, the generator changes no
    field other than the video location: id, owner, thumbnail location,
    title and description come back as they were; and whenever it reports
    an error the whole record comes back as it was. *)
Theorem X3_signing_touches_only_the_location
  (presign : string -> string -> Z -> result string) (video : Video) :
  sameIdentity video (fst (Signer.dbVideoToSignedVideo presign video)) /\
  ThumbnailURL (fst (Signer.dbVideoToSignedVideo presign video))
  = ThumbnailURL video /\
  (snd (Signer.dbVideoToSignedVideo presign video) ≠ None ->
   fst (Signer.dbVideoToSignedVideo presign video) = video).
Proof.
  unfold Signer.dbVideoToSignedVideo, Signer.generatePresignedURL, sameIdentity.
  destruct (VideoURL video) as [url|]; cbv zeta; [|repeat split; congruence].
  destruct (negb _); [repeat split; congruence|].
  destruct (presign _ _ _); cbn; repeat split; congruence.
Qed.

(** X3 on a record whose signing fails. *)
Lemma X3_signing_touches_only_the_location_witness :
  fst (Signer.dbVideoToSignedVideo failingPresign (demoVideo (Some "tubely,clip.mp4")))
  = demoVideo (Some "tubely,clip.mp4").
Proof.
  apply (proj2 (proj2 (X3_signing_touches_only_the_location failingPresign
                         (demoVideo (Some "tubely,clip.mp4"))))).
  vm_compute. discriminate.
Defined.

(** ** The media prober *)

(** X4. The prober answers either with one of the three labels and no
    error, or with the empty label and an error, never with both or
    neither; and it answers without error exactly when the tool ran, its
    output decoded and the decoded stream list is not empty. *)
Theorem X4_prober_label_or_error
  (exec_Run : string -> list string -> result (list byte))
  (json_Unmarshal : list byte -> result Prober.FFProbeOutput)
  (filePath : string) :
  ((exists label,
      Prober.getVideoAspectRatio exec_Run json_Unmarshal filePath = (label, None) /\
      label ∈ ["16:9"; "9:16"; "other"]) \/
   (exists err,
      Prober.getVideoAspectRatio exec_Run json_Unmarshal filePath = ("", Some err))) /\
  (snd (Prober.getVideoAspectRatio exec_Run json_Unmarshal filePath) = None <->
   exists out data s rest,
     exec_Run "ffprobe"
       ["-v"; "error"; "-print_format"; "json"; "-show_streams"; filePath] = Ok out /\
     json_Unmarshal out = Ok data /\
     Prober.Streams data = s :: rest).
Proof.
  unfold Prober.getVideoAspectRatio.
  destruct (exec_Run _ _) as [out|e1] eqn:Hrun.
  - destruct (json_Unmarshal out) as [data|e2] eqn:Hjson.
    + destruct (Prober.Streams data) as [|s rest] eqn:Hstreams.
      * split; [right; eexists; reflexivity|].
        split; [discriminate|].
        intros (o & d & s' & rest' & Hr & Hj & Hs). congruence.
      * split.
        -- left. eexists. split; [reflexivity|].
           unfold Prober.aspectLabel. cbv zeta. repeat case_match; set_solver.
        -- split; [|reflexivity]. intros _. exists out, data, s, rest. auto.
    + split; [right; eexists; reflexivity|].
      split; [discriminate|].
      intros (o & d & s' & rest' & Hr & Hj & Hs). congruence.
  - split; [right; eexists; reflexivity|].
    split; [discriminate|].
    intros (o & d & s' & rest' & Hr & Hj & Hs). congruence.
Qed.

(** ** All upload handlers *)

(** The owner the case analysis of a path has found. *)
Ltac owner_found :=
  match goal with
  | Hid : uuid_Parse _ = Ok ?id, Htok : auth_GetBearerToken _ = Ok ?tok,
    Hjwt : auth_ValidateJWT ?tok _ = Ok ?user, Hdb : db _ !! ?id = Some ?video,
    Hn : ¬ UserID ?video ≠ ?user |- _ =>
    exists user, video;
    split; [exists tok; split; [exact Htok | exact Hjwt]|];
    split; [exists id; split; [exact Hid | exact Hdb]|];
    destruct (decide (UserID video = user)); [assumption | contradiction]
  end.

Ltac unfold_handlers :=
  unfold handlerUploadVideo, ThumbnailByVideoID.handlerUploadThumbnail,
    ThumbnailRandomKey.handlerUploadThumbnail,
    ThumbnailInline.handlerUploadThumbnail; cbv zeta; unfold_io.

Section EveryHandler.
Context `{Collaborators}.

(** X5. Every run of every upload handler writes exactly one response,
    whatever fails on the way: the response the client holds at the end is
    the only one written, and it is either the record with status 200 or an
    error with status 400, 401, 404 or 500. *)
Theorem X5_one_response_per_run cfg fate r w h :
  h ∈ uploadHandlers ->
  exists answer,
    responsesIn (events_since w (h cfg fate r w)) = [answer] /\
    resp (h cfg fate r w) = Some answer /\
    inTaxonomy answer.
Proof.
  unfold uploadHandlers. intros Hh. elem_inv Hh; subst h.
  all: unfold_handlers; paths; events.
  all: eexists; split; [reflexivity|]; split; [reflexivity|].
  all: cbn [inTaxonomy]; try reflexivity.
  all: repeat first [apply list_elem_of_here | apply list_elem_of_further].
Qed.

(** X6. No upload handler reaches a local file, the object store or the
    metadata store's update on behalf of anyone but the owner: whenever a
    run makes any call beyond answering and closing the uploaded part, the
    request carried a credential the verifier resolved to a user, its path
    named a stored record, and that user is the record's owner. *)
Theorem X6_storage_only_for_the_owner cfg fate r w h e :
  h ∈ uploadHandlers ->
  e ∈ events_since w (h cfg fate r w) ->
  reachesStorage e = true ->
  exists user video,
    authenticatesAs cfg r user /\ addresses r w video /\ UserID video = user.
Proof.
  unfold uploadHandlers. intros Hh. elem_inv Hh; subst h.
  all: unfold_handlers; paths; events.
  all: intros Hin Hreach; elem_inv Hin; simplify_eq; try discriminate Hreach.
  all: owner_found.
Qed.

End EveryHandler.

(** ** The metadata store across a run *)

(** Replacing a record by one of the same identity, under the record's own
    id, keeps a store keyed by id and touches no other record. *)
Lemma replace_record (m : gmap string Video) (k : string) (v v' : Video) :
  wellKeyed m -> m !! k = Some v -> sameIdentity v v' ->
  wellKeyed (<[ID v := v']> m) /\
  dom (<[ID v := v']> m) = dom m /\
  <[ID v := v']> m !! k = Some v' /\
  (forall j, j ≠ k -> <[ID v := v']> m !! j = m !! j).
Proof.
  intros Hkeyed Hk (Hid & _). rewrite (Hkeyed k v Hk). repeat split.
  - intros j u. rewrite lookup_insert. case_decide as Hj.
    + intros [= <-]. rewrite Hid, (Hkeyed k v Hk). exact Hj.
    + apply Hkeyed.
  - apply dom_insert_lookup_L. eexists. exact Hk.
  - apply lookup_insert_eq.
  - intros j Hj. apply lookup_insert_ne. congruence.
Qed.

Section StoreAcrossARun.
Context `{Collaborators}.

(** The video handler leaves the store alone or replaces the record the
    path names by that record with a new video location. *)
Lemma video_db_shape cfg fate r w :
  db (handlerUploadVideo cfg fate r w) = db w \/
  exists videoID video url,
    uuid_Parse (PathValue r "videoID") = Ok videoID /\
    db w !! videoID = Some video /\
    db (handlerUploadVideo cfg fate r w)
    = <[ID video := setVideoURL video (Some url)]> (db w).
Proof.
  unfold_handlers; paths; world; simplify_eq; try (left; reflexivity).
  right. do 3 eexists. split; [eassumption|]. split; [eassumption|]. reflexivity.
Qed.

(** A thumbnail handler leaves the store alone or replaces the record the
    path names by that record with a new thumbnail location. *)
Lemma thumbnail_db_shape cfg fate r w h :
  h ∈ thumbnailHandlers ->
  db (h cfg fate r w) = db w \/
  exists videoID video url,
    uuid_Parse (PathValue r "videoID") = Ok videoID /\
    db w !! videoID = Some video /\
    db (h cfg fate r w) = <[ID video := setThumbnailURL video (Some url)]> (db w).
Proof.
  unfold thumbnailHandlers. intros Hh. elem_inv Hh; subst h.
  all: unfold_handlers; paths; world; simplify_eq; try (left; reflexivity).
  all: right; do 3 eexists; split; [first [eassumption | reflexivity]|];
    split; [eassumption|]; reflexivity.
Qed.

(** Every handler leaves the store alone or replaces the record the path
    names by a record of the same identity. *)
Lemma upload_db_shape cfg fate r w h :
  h ∈ uploadHandlers ->
  db (h cfg fate r w) = db w \/
  exists videoID video video',
    uuid_Parse (PathValue r "videoID") = Ok videoID /\
    db w !! videoID = Some video /\
    sameIdentity video video' /\
    db (h cfg fate r w) = <[ID video := video']> (db w).
Proof.
  unfold uploadHandlers. intros Hh.
  apply elem_of_cons in Hh as [->|Hh].
  - destruct (video_db_shape cfg fate r w) as [Hsame|(k & v & url & Hk & Hv & Hdb)];
      [left; exact Hsame|].
    right. exists k, v, (setVideoURL v (Some url)). repeat split; assumption.
  - destruct (thumbnail_db_shape cfg fate r w h Hh)
      as [Hsame|(k & v & url & Hk & Hv & Hdb)]; [left; exact Hsame|].
    right. exists k, v, (setThumbnailURL v (Some url)). repeat split; assumption.
Qed.

(** X7. If the metadata store holds every record under the record's own
    id, then after any run of any upload handler it still does, it holds
    records under exactly the same ids as before (none created, none
    deleted), and every record has the id, owner, title and description it
    had: a handler can change nothing but a location. *)
Theorem X7_store_keeps_its_records cfg fate r w h :
  wellKeyed (db w) ->
  h ∈ uploadHandlers ->
  wellKeyed (db (h cfg fate r w)) /\
  dom (db (h cfg fate r w)) = dom (db w) /\
  (forall k v, db w !! k = Some v ->
     exists v', db (h cfg fate r w) !! k = Some v' /\ sameIdentity v v').
Proof.
  intros Hkeyed Hh.
  destruct (upload_db_shape cfg fate r w h Hh)
    as [->|(k & v & v' & _ & Hv & Hsame & ->)].
  - repeat split; [assumption|]. intros j u Hu. exists u.
    repeat split; assumption.
  - destruct (replace_record (db w) k v v' Hkeyed Hv Hsame)
      as (Hkeyed' & Hdom & Hk & Hother).
    repeat split; [assumption..|]. intros j u Hu.
    destruct (decide (j = k)) as [->|Hj].
    + exists v'. split; [exact Hk|].
      pose proof (eq_trans (eq_sym Hu) Hv) as [= ->]. exact Hsame.
    + exists u. rewrite (Hother j Hj). repeat split; assumption.
Qed.

(** X8. In a store keyed by id, a run of an upload handler changes no
    record other than the one the request's path names; the video handler
    changes no record's thumbnail location, and no thumbnail handler changes
    any record's video location. *)
Theorem X8_only_the_named_location_changes cfg fate r w :
  wellKeyed (db w) ->
  (forall h k, h ∈ uploadHandlers ->
     uuid_Parse (PathValue r "videoID") ≠ Ok k ->
     db (h cfg fate r w) !! k = db w !! k) /\
  (forall k v v',
     db w !! k = Some v -> db (handlerUploadVideo cfg fate r w) !! k = Some v' ->
     ThumbnailURL v' = ThumbnailURL v) /\
  (forall h k v v', h ∈ thumbnailHandlers ->
     db w !! k = Some v -> db (h cfg fate r w) !! k = Some v' ->
     VideoURL v' = VideoURL v).
Proof.
  intros Hkeyed. split; [|split].
  - intros h j Hh Hj.
    destruct (upload_db_shape cfg fate r w h Hh)
      as [->|(k & v & v' & Hk & Hv & Hsame & ->)]; [reflexivity|].
    destruct (replace_record (db w) k v v' Hkeyed Hv Hsame) as (_ & _ & _ & Hother).
    apply Hother. congruence.
  - intros j u u' Hu.
    destruct (video_db_shape cfg fate r w) as [->|(k & v & url & _ & Hv & ->)];
      [congruence|].
    rewrite (Hkeyed k v Hv), lookup_insert. case_decide as Hj.
    + intros [= <-]. subst j.
      pose proof (eq_trans (eq_sym Hu) Hv) as [= ->]. reflexivity.
    + congruence.
  - intros h j u u' Hh Hu.
    destruct (thumbnail_db_shape cfg fate r w h Hh)
      as [->|(k & v & url & _ & Hv & ->)]; [congruence|].
    rewrite (Hkeyed k v Hv), lookup_insert. case_decide as Hj.
    + intros [= <-]. subst j.
      pose proof (eq_trans (eq_sym Hu) Hv) as [= ->]. reflexivity.
    + congruence.
Qed.

End StoreAcrossARun.

(** ** The video handler's objects and files *)

Lemma String_length_append (a b : string) :
  String.length (a +:+ b) = (String.length a + String.length b)%nat.
Proof.
  induction a as [|c a IH]; [reflexivity|].
  change (String c a +:+ b) with (String c (a +:+ b)).
  cbn [String.length]. rewrite IH. reflexivity.
Qed.

(** Hex digits are never slashes. *)
Lemma hex_no_slash (src : list byte) :
  hasByte "/"%char (hex_EncodeToString src) = false.
Proof.
  induction src as [|v src IH]; [reflexivity|].
  cbn [hex_EncodeToString]. rewrite hasByte_append, IH, orb_false_r.
  destruct v; reflexivity.
Qed.

Section VideoObjects.
Context `{Collaborators}.

(** X9. When the name the operating system picks for the temporary file is
    not in use, the video handler leaves the local files exactly as it found
    them, on every path: success, rejection, and failure at any step. *)
Theorem X9_video_leaves_no_file cfg fate r w :
  (forall name, createTemp fate = Ok name -> disk w !! name = None) ->
  disk (handlerUploadVideo cfg fate r w) = disk w.
Proof.
  intros Hfresh. unfold_handlers; paths; world; try reflexivity.
  all: rewrite delete_insert_eq, ?insert_insert_eq, delete_insert_id;
    [reflexivity | apply Hfresh; first [assumption | reflexivity]].
Qed.

(** X10. Every object the video handler puts goes to the configured bucket
    with content type video/mp4 under a key that is the hex form of 32
    random bytes followed by .mp4: 68 characters, none of them a slash. And
    the location of every record the same run submits to the metadata store
    names exactly that key. *)
Theorem X10_object_key_and_location_agree cfg fate r w bucket key contentType :
  EvPutObject bucket key contentType
  ∈ events_since w (handlerUploadVideo cfg fate r w) ->
  bucket = s3Bucket cfg /\
  contentType = "video/mp4" /\
  (exists randomBytes,
     length randomBytes = 32%nat /\
     key = hex_EncodeToString randomBytes +:+ ".mp4") /\
  String.length key = 68%nat /\
  hasByte "/"%char key = false /\
  (forall video,
     EvUpdateVideo video ∈ events_since w (handlerUploadVideo cfg fate r w) ->
     VideoURL video
     = Some ("https://" +:+ bucket +:+ ".s3." +:+ s3Region cfg
               +:+ ".amazonaws.com/" +:+ key)).
Proof.
  unfold_handlers; paths; events; intros Hin; elem_inv Hin; simplify_eq.
  all: match goal with
       | Hr : rand_Read _ _ = Ok ?bs |- _ =>
         pose proof (rand_Read_length _ _ _ Hr) as Hlen
       end.
  all: split; [reflexivity|].
  all: split;
    [match goal with
     | Hn : ¬ ?s ≠ _ |- ?s = _ =>
       destruct (decide (s = "video/mp4")); [assumption|contradiction]
     end|].
  all: split; [eexists; split; [exact Hlen | reflexivity]|].
  all: split; [rewrite String_length_append, hex_length, Hlen; reflexivity|].
  all: split; [rewrite hasByte_append, hex_no_slash; reflexivity|].
  all: intros video Hup; elem_inv Hup; reflexivity.
Qed.

(** X11. When the object was stored and the metadata update then fails,
    the handler answers 500 and leaves the store as it was, and the object
    stays in the bucket under its key with the uploaded bytes: nothing
    removes it, so it is referenced by no record. *)
Theorem X11_object_orphaned_when_update_fails cfg fate r w video err :
  putObject fate = None ->
  updateVideo fate = Some err ->
  EvUpdateVideo video ∈ events_since w (handlerUploadVideo cfg fate r w) ->
  exists key file,
    videoPart r = Ok file /\
    VideoURL video
    = Some ("https://" +:+ s3Bucket cfg +:+ ".s3." +:+ s3Region cfg
              +:+ ".amazonaws.com/" +:+ key) /\
    objects (handlerUploadVideo cfg fate r w) !! (s3Bucket cfg, key)
    = Some ("video/mp4", content file) /\
    db (handlerUploadVideo cfg fate r w) = db w /\
    resp (handlerUploadVideo cfg fate r w)
    = Some (RespError StatusInternalServerError "Couldn't update video metadata").
Proof.
  intros Hput Hfail. unfold videoPart. unfold_handlers. rewrite Hput, Hfail.
  paths; events; intros Hin; elem_inv Hin; simplify_eq.
  do 2 eexists. split; [reflexivity|]. split; [reflexivity|].
  world. split; [|split; reflexivity].
  rewrite lookup_insert_eq, lookup_insert_eq. cbn [default].
  repeat f_equal.
  match goal with
  | Hn : ¬ ?s ≠ _ |- ?s = _ =>
    destruct (decide (s = "video/mp4")); [assumption|contradiction]
  end.
Qed.

(** X12. A run of the video handler that answers with a record is the
    whole pipeline in order: create the temporary file, copy the upload
    into it, rewind it, put the object, update the record, answer 200, close
    and remove the temporary file, close the upload. The answer is the
    fetched record with only its video location replaced; the store holds
    the answer under its id and the bucket holds the uploaded bytes as
    video/mp4 under the key the location names. *)
Theorem X12_video_success_is_the_whole_pipeline cfg fate r w code answer :
  resp (handlerUploadVideo cfg fate r w) = Some (RespJSON code answer) ->
  exists videoID video file tmp key,
    uuid_Parse (PathValue r "videoID") = Ok videoID /\
    db w !! videoID = Some video /\
    videoPart r = Ok file /\
    code = StatusOK /\
    answer = setVideoURL video
               (Some ("https://" +:+ s3Bucket cfg +:+ ".s3." +:+ s3Region cfg
                        +:+ ".amazonaws.com/" +:+ key)) /\
    events_since w (handlerUploadVideo cfg fate r w)
    = [EvCreateTemp tmp; EvCopy tmp; EvSeek tmp;
       EvPutObject (s3Bucket cfg) key "video/mp4"; EvUpdateVideo answer;
       EvRespond (RespJSON StatusOK answer);
       EvClose (OnDisk tmp); EvRemove tmp; EvClose UploadPart] /\
    db (handlerUploadVideo cfg fate r w) = <[ID video := answer]> (db w) /\
    objects (handlerUploadVideo cfg fate r w)
    = <[(s3Bucket cfg, key) := ("video/mp4", content file)]> (objects w).
Proof.
  unfold videoPart. unfold_handlers.
  paths; world; intros Hresp; simplify_eq.
  match goal with
  | Hn : ¬ ?s ≠ "video/mp4" |- _ =>
    assert (s = "video/mp4") as ->
      by (destruct (decide (s = "video/mp4")); [assumption|contradiction])
  end.
  do 5 eexists. split; [eassumption|]. split; [eassumption|].
  split; [reflexivity|]. split; [reflexivity|]. split; [reflexivity|].
  split; [events; reflexivity|]. split; [reflexivity|].
  rewrite lookup_insert_eq. reflexivity.
Qed.

End VideoObjects.

(** ** The thumbnail handlers' files *)

(** The random-key alphabet has no slash. *)
Lemma rawurl_digit_no_slash (i : N) :
  (i < 64)%N ->
  Ascii.eqb (charAt (base64.encode base64.RawURLEncoding) i) "/"%char = false.
Proof.
  intros Hi. unfold charAt. remember (N.to_nat i) as n eqn:Hn.
  assert (Hlt : (n < 64)%nat) by lia. clear Hn Hi.
  do 64 (destruct n as [|n]; [reflexivity|]). lia.
Qed.

Lemma sextet_no_slash (val k : N) :
  Ascii.eqb (base64.sextet base64.RawURLEncoding val k) "/"%char = false.
Proof.
  unfold base64.sextet. apply rawurl_digit_no_slash.
  change 63%N with (N.ones 6). rewrite N.land_ones.
  apply N.mod_upper_bound. discriminate.
Qed.

(** The random key never holds a slash, whatever the bytes. *)
Lemma rawurl_no_slash (src : list byte) :
  hasByte "/"%char (base64.EncodeToString base64.RawURLEncoding src) = false.
Proof.
  remember (length src) as n eqn:Hn.
  assert (Hle : (length src <= n)%nat) by lia. clear Hn.
  revert src Hle. induction n as [|n IH]; intros src Hle.
  - destruct src; [reflexivity | cbn in Hle; lia].
  - destruct src as [|a [|b [|c rest]]]; [reflexivity|..];
      cbn [base64.EncodeToString hasByte]; cbv zeta;
      rewrite ?sextet_no_slash; cbn [orb]; [reflexivity..|].
    apply IH. cbn [length] in Hle. lia.
Qed.

(** 32 bytes give a random key of 43 characters. *)
Lemma rawurl_length_32 (src : list byte) :
  length src = 32%nat ->
  String.length (base64.EncodeToString base64.RawURLEncoding src) = 43%nat.
Proof.
  intros Hlen.
  do 32 (destruct src as [|? src]; [discriminate Hlen|]).
  destruct src; [reflexivity | discriminate Hlen].
Qed.

(** Each content type of the first variant's table has one extension. *)
Lemma extension_table_functional (contentType ext1 ext2 : string) :
  (contentType, ext1)
  ∈ [("image/jpeg", ".jpg"); ("image/png", ".png"); ("image/gif", ".gif");
     ("application/pdf", ".pdf")] ->
  (contentType, ext2)
  ∈ [("image/jpeg", ".jpg"); ("image/png", ".png"); ("image/gif", ".gif");
     ("application/pdf", ".pdf")] ->
  ext1 = ext2.
Proof.
  intros H1 H2. elem_inv H1; elem_inv H2; congruence.
Qed.

(** The row of a table that the case analysis of a path has selected. *)
Ltac in_table :=
  try match goal with
      | Ht : Header_Get _ _ = _ |- _ => rewrite Ht
      | Hm : mime_ParseMediaType _ = _ |- _ => rewrite Hm
      end;
  subst;
  repeat first [apply list_elem_of_here | apply list_elem_of_further].

Section ThumbnailFiles.
Context `{Collaborators}.

(** What a successful run of the first variant has done. *)
Lemma byVideoID_success cfg fate r w code answer :
  resp (ThumbnailByVideoID.handlerUploadThumbnail cfg fate r w)
  = Some (RespJSON code answer) ->
  exists videoID video file ext,
    uuid_Parse (PathValue r "videoID") = Ok videoID /\
    db w !! videoID = Some video /\
    thumbnailPart r = Ok file /\
    (Header_Get (PartHeader file) "Content-Type", ext)
    ∈ [("image/jpeg", ".jpg"); ("image/png", ".png"); ("image/gif", ".gif");
       ("application/pdf", ".pdf")] /\
    code = StatusOK /\
    answer = setThumbnailURL video
               (Some ("http://localhost:" +:+ port cfg +:+ "/assets/"
                        +:+ videoID +:+ ext)) /\
    disk (ThumbnailByVideoID.handlerUploadThumbnail cfg fate r w)
    = <[filepath_Join (assetsRoot cfg) (videoID +:+ ext) := content file]> (disk w) /\
    db (ThumbnailByVideoID.handlerUploadThumbnail cfg fate r w)
    = <[ID video := answer]> (db w).
Proof.
  unfold thumbnailPart. unfold_handlers.
  paths; world; intros Hresp; simplify_eq.
  all: do 4 eexists; split; [reflexivity|]; split; [eassumption|];
    split; [reflexivity|].
  all: split; [|split; [reflexivity|]; split; [reflexivity|];
                split; [apply insert_insert_eq | reflexivity]].
  all: in_table.
Qed.

(** X13. A successful run of the thumbnail handler that stores under the
    video id: the declared Content-Type is one of the four of the table and
    picks the extension; the file <assets root>/<video id><extension> holds
    exactly the uploaded bytes and no other file changed; the answer is the
    fetched record with only its thumbnail location replaced, by
    http://localhost:<port>/assets/<video id><extension>; the store holds
    the answer; and the run is create, copy, update, answer 200, close the
    file, close the upload. *)
Theorem X13_thumbnail_under_video_id cfg fate r w code answer :
  resp (ThumbnailByVideoID.handlerUploadThumbnail cfg fate r w)
  = Some (RespJSON code answer) ->
  exists videoID video file ext,
    uuid_Parse (PathValue r "videoID") = Ok videoID /\
    db w !! videoID = Some video /\
    thumbnailPart r = Ok file /\
    (Header_Get (PartHeader file) "Content-Type", ext)
    ∈ [("image/jpeg", ".jpg"); ("image/png", ".png"); ("image/gif", ".gif");
       ("application/pdf", ".pdf")] /\
    code = StatusOK /\
    answer = setThumbnailURL video
               (Some ("http://localhost:" +:+ port cfg +:+ "/assets/"
                        +:+ videoID +:+ ext)) /\
    disk (ThumbnailByVideoID.handlerUploadThumbnail cfg fate r w)
    = <[filepath_Join (assetsRoot cfg) (videoID +:+ ext) := content file]> (disk w) /\
    db (ThumbnailByVideoID.handlerUploadThumbnail cfg fate r w)
    = <[ID video := answer]> (db w) /\
    events_since w (ThumbnailByVideoID.handlerUploadThumbnail cfg fate r w)
    = [EvCreate (filepath_Join (assetsRoot cfg) (videoID +:+ ext));
       EvCopy (filepath_Join (assetsRoot cfg) (videoID +:+ ext));
       EvUpdateVideo answer; EvRespond (RespJSON StatusOK answer);
       EvClose (OnDisk (filepath_Join (assetsRoot cfg) (videoID +:+ ext)));
       EvClose UploadPart].
Proof.
  intros Hresp.
  destruct (byVideoID_success cfg fate r w code answer Hresp)
    as (videoID & video & file & ext & Hid & Hdb & Hpart & Hext & -> & -> & Hdisk & Hstore).
  exists videoID, video, file, ext.
  repeat (split; [assumption || reflexivity|]).
  revert Hresp. unfold thumbnailPart in Hpart. revert Hpart. unfold_handlers.
  rewrite Hid.
  paths; events; intros Hpart Hresp; simplify_eq.
  all: elem_inv Hext; simplify_eq; try reflexivity.
  all: exfalso; congruence.
Qed.

(** X14. A successful run of the thumbnail handler that stores under a
    random key: the parsed media type is image/jpeg or image/png and picks
    the extension; the file name is the unpadded URL-safe base64 form of 32
    random bytes followed by the extension, 47 characters with no slash in
    them, so it names a file directly in the assets root whatever the
    upload called itself; that file holds exactly the uploaded bytes, and
    the answer's thumbnail location names it. *)
Theorem X14_thumbnail_under_random_key cfg fate r w code answer :
  resp (ThumbnailRandomKey.handlerUploadThumbnail cfg fate r w)
  = Some (RespJSON code answer) ->
  exists video file ext randomBytes filename,
    addresses r w video /\
    thumbnailPart r = Ok file /\
    (declaredType file, ext) ∈ [(Ok "image/jpeg", ".jpg"); (Ok "image/png", ".png")] /\
    length randomBytes = 32%nat /\
    filename = base64.EncodeToString base64.RawURLEncoding randomBytes +:+ ext /\
    String.length filename = 47%nat /\
    hasByte "/"%char filename = false /\
    code = StatusOK /\
    answer = setThumbnailURL video
               (Some ("http://localhost:" +:+ port cfg +:+ "/assets/" +:+ filename)) /\
    disk (ThumbnailRandomKey.handlerUploadThumbnail cfg fate r w)
    = <[filepath_Join (assetsRoot cfg) filename := content file]> (disk w) /\
    db (ThumbnailRandomKey.handlerUploadThumbnail cfg fate r w)
    = <[ID video := answer]> (db w).
Proof.
  unfold thumbnailPart, declaredType, addresses. unfold_handlers.
  paths; world; intros Hresp; simplify_eq.
  all: match goal with
       | Hr : rand_Read _ _ = Ok ?bs |- _ =>
         pose proof (rand_Read_length _ _ _ Hr) as Hlen
       end.
  all: do 5 eexists.
  all: split; [eexists; split; [reflexivity | eassumption]|].
  all: split; [reflexivity|].
  all: split; [|split; [exact Hlen|]; split; [reflexivity|]].
  all: try in_table.
  all: split;
    [rewrite String_length_append, (rawurl_length_32 _ Hlen); reflexivity|].
  all: split; [rewrite hasByte_append, rawurl_no_slash; reflexivity|].
  all: split; [reflexivity|]; split; [reflexivity|].
  all: split; [apply insert_insert_eq | reflexivity].
Qed.

(** X15. Uploading a second thumbnail of the same declared type for the
    same video with the first variant replaces the first one in place: after
    both runs succeeded, the local files are those from before the first
    run plus one file, which holds the second upload, and the record's
    thumbnail location is the same as after the first run. *)
Theorem X15_second_thumbnail_replaces_first
  cfg fate1 fate2 r1 r2 w file1 file2 code1 code2 answer1 answer2 :
  resp (ThumbnailByVideoID.handlerUploadThumbnail cfg fate1 r1 w)
  = Some (RespJSON code1 answer1) ->
  resp (ThumbnailByVideoID.handlerUploadThumbnail cfg fate2 r2
          (ThumbnailByVideoID.handlerUploadThumbnail cfg fate1 r1 w))
  = Some (RespJSON code2 answer2) ->
  PathValue r1 "videoID" = PathValue r2 "videoID" ->
  thumbnailPart r1 = Ok file1 ->
  thumbnailPart r2 = Ok file2 ->
  Header_Get (PartHeader file1) "Content-Type"
  = Header_Get (PartHeader file2) "Content-Type" ->
  (exists path,
     disk (ThumbnailByVideoID.handlerUploadThumbnail cfg fate2 r2
             (ThumbnailByVideoID.handlerUploadThumbnail cfg fate1 r1 w))
     = <[path := content file2]> (disk w)) /\
  ThumbnailURL answer2 = ThumbnailURL answer1.
Proof.
  intros Hfirst Hsecond Hpath Hpart1 Hpart2 Htype.
  destruct (byVideoID_success _ _ _ _ _ _ Hfirst)
    as (id1 & v1 & f1 & ext1 & Hid1 & _ & Hf1 & Hext1 & _ & -> & Hdisk1 & _).
  destruct (byVideoID_success _ _ _ _ _ _ Hsecond)
    as (id2 & v2 & f2 & ext2 & Hid2 & _ & Hf2 & Hext2 & _ & -> & Hdisk2 & _).
  assert (f1 = file1) as -> by congruence.
  assert (f2 = file2) as -> by congruence.
  assert (id2 = id1) as -> by congruence.
  rewrite Htype in Hext1.
  assert (ext2 = ext1) as ->
    by (apply (extension_table_functional _ _ _ Hext2 Hext1)).
  split; [|reflexivity].
  exists (filepath_Join (assetsRoot cfg) (id1 +:+ ext1)).
  rewrite Hdisk2, Hdisk1. apply insert_insert_eq.
Qed.

End ThumbnailFiles.

Section ThumbnailFailures.
Context `{Collaborators}.

(** X16. In both thumbnail handlers that write a local file, a copy that
    fails part-way is answered 500 and the store is left as it was, but the
    file that was created stays on disk with the bytes written so far:
    nothing removes it on this path (only a failed metadata update is
    followed by a removal). *)
Theorem X16_failed_copy_leaves_the_file cfg fate r w n err path :
  copy fate = Some (n, err) ->
  (EvCreate path
   ∈ events_since w (ThumbnailByVideoID.handlerUploadThumbnail cfg fate r w) ->
   (exists file,
      thumbnailPart r = Ok file /\
      disk (ThumbnailByVideoID.handlerUploadThumbnail cfg fate r w) !! path
      = Some (take n (content file))) /\
   (EvRemove path
    ∉ events_since w (ThumbnailByVideoID.handlerUploadThumbnail cfg fate r w)) /\
   db (ThumbnailByVideoID.handlerUploadThumbnail cfg fate r w) = db w /\
   resp (ThumbnailByVideoID.handlerUploadThumbnail cfg fate r w)
   = Some (RespError StatusInternalServerError "Couldn't save file")) /\
  (EvCreate path
   ∈ events_since w (ThumbnailRandomKey.handlerUploadThumbnail cfg fate r w) ->
   (exists file,
      thumbnailPart r = Ok file /\
      disk (ThumbnailRandomKey.handlerUploadThumbnail cfg fate r w) !! path
      = Some (take n (content file))) /\
   (EvRemove path
    ∉ events_since w (ThumbnailRandomKey.handlerUploadThumbnail cfg fate r w)) /\
   db (ThumbnailRandomKey.handlerUploadThumbnail cfg fate r w) = db w /\
   resp (ThumbnailRandomKey.handlerUploadThumbnail cfg fate r w)
   = Some (RespError StatusInternalServerError "Couldn't save file")).
Proof.
  intros Hcopy. unfold thumbnailPart. split.
  all: unfold_handlers; rewrite Hcopy.
  all: paths; events; intros Hin; elem_inv Hin.
  all: split; [eexists; split; [reflexivity | world; apply lookup_insert_eq]|].
  all: split; [intros Hrm; elem_inv Hrm|]; split; reflexivity.
Qed.

(** X17. No thumbnail handler ever calls the object store, on any path:
    the bucket is as it was and the run has no put. The inline variant
    calls nothing on the local file system either: its runs consist of at
    most one metadata update, one response and the closing of the upload,
    and the local files are as they were. *)
Theorem X17_thumbnails_stay_off_the_object_store cfg fate r w :
  (forall h, h ∈ thumbnailHandlers ->
     objects (h cfg fate r w) = objects w /\
     forall bucket key contentType,
       EvPutObject bucket key contentType ∉ events_since w (h cfg fate r w)) /\
  disk (ThumbnailInline.handlerUploadThumbnail cfg fate r w) = disk w /\
  (forall e,
     e ∈ events_since w (ThumbnailInline.handlerUploadThumbnail cfg fate r w) ->
     e = EvClose UploadPart \/ (exists answer, e = EvRespond answer) \/
     (exists video, e = EvUpdateVideo video)).
Proof.
  split; [|split].
  - unfold thumbnailHandlers. intros h Hh. elem_inv Hh; subst h.
    all: unfold_handlers; paths; events; (split; [reflexivity|]).
    all: intros bucket key contentType Hin; elem_inv Hin.
  - unfold_handlers; paths; reflexivity.
  - unfold_handlers; paths; events; intros ev Hin; elem_inv Hin; subst; eauto.
Qed.

(** X18. In both thumbnail handlers that write a local file, every run
    that created the file ends by closing it and then closing the upload,
    whatever happened in between: no path leaves a handle open. *)
Theorem X18_thumbnail_file_is_always_closed cfg fate r w path :
  (EvCreate path
   ∈ events_since w (ThumbnailByVideoID.handlerUploadThumbnail cfg fate r w) ->
   exists before,
     events_since w (ThumbnailByVideoID.handlerUploadThumbnail cfg fate r w)
     = before ++ [EvClose (OnDisk path); EvClose UploadPart]) /\
  (EvCreate path
   ∈ events_since w (ThumbnailRandomKey.handlerUploadThumbnail cfg fate r w) ->
   exists before,
     events_since w (ThumbnailRandomKey.handlerUploadThumbnail cfg fate r w)
     = before ++ [EvClose (OnDisk path); EvClose UploadPart]).
Proof.
  split.
  all: unfold_handlers; paths; events; intros Hin; elem_inv Hin.
  all: ends_with 2%nat.
Qed.

End ThumbnailFailures.

(** ** The classifier on streams without dimensions *)

(** X19. A stream whose width or height is zero (an audio stream listed
    first decodes to both zero) is labelled other, whatever the other
    dimension is: the division by zero gives an infinity or a NaN, which is
    within the tolerance of neither ratio, and nothing fails. *)
Theorem X19_no_dimensions_is_other (w h : Z) :
  w = 0 \/ h = 0 -> Prober.aspectLabel w h = "other".
Proof.
  intros Hzero. unfold Prober.aspectLabel. cbv zeta.
  rewrite !FloatAxioms.ltb_spec, !FloatAxioms.abs_spec, !FloatAxioms.sub_spec,
    !FloatAxioms.div_spec.
  destruct Hzero as [-> | ->].
  - replace (Prim2SF (Prober.float64_of_int 0)) with (S754_zero false)
      by (vm_compute; reflexivity).
    destruct (Prim2SF (Prober.float64_of_int h)) as [s| s| |s m e];
      vm_compute; reflexivity.
  - replace (Prim2SF (Prober.float64_of_int 0)) with (S754_zero false)
      by (vm_compute; reflexivity).
    destruct (Prim2SF (Prober.float64_of_int w)) as [s| s| |s m e];
      try destruct s; vm_compute; reflexivity.
Qed.

(** X19 on the first stream of an audio-only file, which has no
    dimensions: the prober labels it other. *)
Lemma X19_no_dimensions_is_other_witness :
  (0 = 0 \/ 0 = 0) /\ Prober.aspectLabel 0 0 = "other".
Proof.
  split; [left; reflexivity|].
  exact (X19_no_dimensions_is_other 0 0 (or_introl eq_refl)).
Defined.

(** ** The further properties on concrete runs *)

(** The demonstration store is keyed by id. *)
Lemma demoWorld_wellKeyed : wellKeyed (db demoWorld).
Proof.
  intros k v Hk.
  change (db demoWorld)
    with ({[ "video-1" := demoVideo None ]} : gmap string Video) in Hk.
  apply lookup_singleton_Some in Hk as [<- <-]. reflexivity.
Defined.

(** X5 on the owner's successful video upload. *)
Lemma X5_one_response_per_run_witness :
  @handlerUploadVideo demoLib ∈ @uploadHandlers demoLib /\
  exists answer,
    responsesIn (events_since demoWorld
                   (@handlerUploadVideo demoLib demoCfg fairFate mp4Upload demoWorld))
    = [answer] /\
    resp (@handlerUploadVideo demoLib demoCfg fairFate mp4Upload demoWorld)
    = Some answer /\
    inTaxonomy answer.
Proof.
  assert (Hh : @handlerUploadVideo demoLib ∈ @uploadHandlers demoLib)
    by apply list_elem_of_here.
  split; [exact Hh|].
  exact (@X5_one_response_per_run demoLib demoCfg fairFate mp4Upload demoWorld
           _ Hh).
Defined.

(** X6 on the put of the owner's successful video upload. *)
Lemma X6_storage_only_for_the_owner_witness :
  EvPutObject "tubely" zeroKey "video/mp4"
  ∈ events_since demoWorld
      (@handlerUploadVideo demoLib demoCfg fairFate mp4Upload demoWorld) /\
  reachesStorage (EvPutObject "tubely" zeroKey "video/mp4") = true /\
  exists user video,
    @authenticatesAs demoLib demoCfg mp4Upload user /\
    @addresses demoLib mp4Upload demoWorld video /\ UserID video = user.
Proof.
  assert (Hin : EvPutObject "tubely" zeroKey "video/mp4"
    ∈ events_since demoWorld
        (@handlerUploadVideo demoLib demoCfg fairFate mp4Upload demoWorld)).
  { vm_compute. do 3 apply list_elem_of_further. apply list_elem_of_here. }
  split; [exact Hin|]. split; [reflexivity|].
  exact (@X6_storage_only_for_the_owner demoLib demoCfg fairFate mp4Upload
           demoWorld _ _ (list_elem_of_here _ _) Hin eq_refl).
Defined.

(** X7 on the owner's successful video upload into the one-record store. *)
Lemma X7_store_keeps_its_records_witness :
  wellKeyed (db demoWorld) /\
  wellKeyed (db (@handlerUploadVideo demoLib demoCfg fairFate mp4Upload demoWorld)) /\
  dom (db (@handlerUploadVideo demoLib demoCfg fairFate mp4Upload demoWorld))
  = dom (db demoWorld).
Proof.
  split; [exact demoWorld_wellKeyed|].
  destruct (@X7_store_keeps_its_records demoLib demoCfg fairFate mp4Upload
              demoWorld _ demoWorld_wellKeyed (list_elem_of_here _ _))
    as (Hkeyed & Hdom & _).
  split; [exact Hkeyed | exact Hdom].
Defined.

(** X8 on the owner's PNG thumbnail: the video location of video-1 stays. *)
Lemma X8_only_the_named_location_changes_witness :
  wellKeyed (db demoWorld) /\
  forall v',
    db (@ThumbnailInline.handlerUploadThumbnail demoLib demoCfg fairFate
          (pngUpload ["001"; "002"]%byte) demoWorld) !! "video-1" = Some v' ->
    VideoURL v' = VideoURL (demoVideo None).
Proof.
  split; [exact demoWorld_wellKeyed|].
  intros v'.
  apply (proj2 (proj2 (@X8_only_the_named_location_changes demoLib demoCfg
                         fairFate (pngUpload ["001"; "002"]%byte) demoWorld
                         demoWorld_wellKeyed))).
  - do 2 apply list_elem_of_further. apply list_elem_of_here.
  - reflexivity.
Defined.

(** X9 on the owner's video upload while the metadata store is down. *)
Lemma X9_video_leaves_no_file_witness :
  (forall name, createTemp storeDownFate = Ok name -> disk demoWorld !! name = None) /\
  disk (@handlerUploadVideo demoLib demoCfg storeDownFate mp4Upload demoWorld)
  = disk demoWorld.
Proof.
  assert (Hfresh : forall name,
            createTemp storeDownFate = Ok name -> disk demoWorld !! name = None).
  { intros name _. apply lookup_empty. }
  split; [exact Hfresh|].
  exact (@X9_video_leaves_no_file demoLib demoCfg storeDownFate mp4Upload
           demoWorld Hfresh).
Defined.

(** X10 on the owner's successful video upload. *)
Lemma X10_object_key_and_location_agree_witness :
  EvPutObject "tubely" zeroKey "video/mp4"
  ∈ events_since demoWorld
      (@handlerUploadVideo demoLib demoCfg fairFate mp4Upload demoWorld) /\
  String.length zeroKey = 68%nat /\
  hasByte "/"%char zeroKey = false.
Proof.
  assert (Hin : EvPutObject "tubely" zeroKey "video/mp4"
    ∈ events_since demoWorld
        (@handlerUploadVideo demoLib demoCfg fairFate mp4Upload demoWorld)).
  { vm_compute. do 3 apply list_elem_of_further. apply list_elem_of_here. }
  split; [exact Hin|].
  destruct (@X10_object_key_and_location_agree demoLib demoCfg fairFate
              mp4Upload demoWorld _ _ _ Hin) as (_ & _ & _ & Hlen & Hslash & _).
  split; [exact Hlen | exact Hslash].
Defined.

(** X11 on the owner's video upload while the metadata store is down. *)
Lemma X11_object_orphaned_when_update_fails_witness :
  putObject storeDownFate = None /\
  updateVideo storeDownFate = Some "database is locked" /\
  EvUpdateVideo storedVideo
  ∈ events_since demoWorld
      (@handlerUploadVideo demoLib demoCfg storeDownFate mp4Upload demoWorld) /\
  exists key file,
    @videoPart demoLib mp4Upload = Ok file /\
    VideoURL storedVideo
    = Some ("https://" +:+ s3Bucket demoCfg +:+ ".s3." +:+ s3Region demoCfg
              +:+ ".amazonaws.com/" +:+ key) /\
    objects (@handlerUploadVideo demoLib demoCfg storeDownFate mp4Upload demoWorld)
      !! (s3Bucket demoCfg, key)
    = Some ("video/mp4", content file) /\
    db (@handlerUploadVideo demoLib demoCfg storeDownFate mp4Upload demoWorld)
    = db demoWorld /\
    resp (@handlerUploadVideo demoLib demoCfg storeDownFate mp4Upload demoWorld)
    = Some (RespError StatusInternalServerError "Couldn't update video metadata").
Proof.
  assert (Hin : EvUpdateVideo storedVideo
    ∈ events_since demoWorld
        (@handlerUploadVideo demoLib demoCfg storeDownFate mp4Upload demoWorld)).
  { vm_compute. do 4 apply list_elem_of_further. apply list_elem_of_here. }
  split; [reflexivity|]. split; [reflexivity|]. split; [exact Hin|].
  exact (@X11_object_orphaned_when_update_fails demoLib demoCfg storeDownFate
           mp4Upload demoWorld storedVideo "database is locked"
           eq_refl eq_refl Hin).
Defined.

(** X12 on the owner's successful video upload. *)
Lemma X12_video_success_is_the_whole_pipeline_witness :
  resp (@handlerUploadVideo demoLib demoCfg fairFate mp4Upload demoWorld)
  = Some (RespJSON 200 storedVideo) /\
  exists tmp key,
    events_since demoWorld
      (@handlerUploadVideo demoLib demoCfg fairFate mp4Upload demoWorld)
    = [EvCreateTemp tmp; EvCopy tmp; EvSeek tmp;
       EvPutObject (s3Bucket demoCfg) key "video/mp4"; EvUpdateVideo storedVideo;
       EvRespond (RespJSON StatusOK storedVideo);
       EvClose (OnDisk tmp); EvRemove tmp; EvClose UploadPart].
Proof.
  assert (Hresp : resp (@handlerUploadVideo demoLib demoCfg fairFate mp4Upload
                          demoWorld) = Some (RespJSON 200 storedVideo))
    by (vm_compute; reflexivity).
  split; [exact Hresp|].
  destruct (@X12_video_success_is_the_whole_pipeline demoLib demoCfg fairFate
              mp4Upload demoWorld 200 storedVideo Hresp)
    as (videoID & video & file & tmp & key & _ & _ & _ & _ & _ & Hevents & _).
  exists tmp, key. exact Hevents.
Defined.

(** X13 on the owner's PNG thumbnail, stored under the video id. *)
Lemma X13_thumbnail_under_video_id_witness :
  resp (@ThumbnailByVideoID.handlerUploadThumbnail demoLib demoCfg fairFate
          (pngUpload ["001"; "002"]%byte) demoWorld)
  = Some (RespJSON 200 (thumbVideo "http://localhost:8091/assets/video-1.png")) /\
  exists videoID ext file,
    disk (@ThumbnailByVideoID.handlerUploadThumbnail demoLib demoCfg fairFate
            (pngUpload ["001"; "002"]%byte) demoWorld)
    = <[@filepath_Join demoLib (assetsRoot demoCfg) (videoID +:+ ext)
          := content file]> (disk demoWorld).
Proof.
  assert (Hresp : resp (@ThumbnailByVideoID.handlerUploadThumbnail demoLib
                          demoCfg fairFate (pngUpload ["001"; "002"]%byte) demoWorld)
    = Some (RespJSON 200 (thumbVideo "http://localhost:8091/assets/video-1.png")))
    by (vm_compute; reflexivity).
  split; [exact Hresp|].
  destruct (@X13_thumbnail_under_video_id demoLib demoCfg fairFate
              (pngUpload ["001"; "002"]%byte) demoWorld _ _ Hresp)
    as (videoID & video & file & ext & _ & _ & _ & _ & _ & _ & Hdisk & _).
  exists videoID, ext, file. exact Hdisk.
Defined.

(** X14 on the owner's PNG thumbnail, stored under a random key. *)
Lemma X14_thumbnail_under_random_key_witness :
  resp (@ThumbnailRandomKey.handlerUploadThumbnail demoLib demoCfg fairFate
          (pngUpload ["001"; "002"]%byte) demoWorld)
  = Some (RespJSON 200
            (thumbVideo ("http://localhost:8091/assets/" +:+ zeroName))) /\
  exists filename file,
    String.length filename = 47%nat /\
    hasByte "/"%char filename = false /\
    disk (@ThumbnailRandomKey.handlerUploadThumbnail demoLib demoCfg fairFate
            (pngUpload ["001"; "002"]%byte) demoWorld)
    = <[@filepath_Join demoLib (assetsRoot demoCfg) filename := content file]>
        (disk demoWorld).
Proof.
  assert (Hresp : resp (@ThumbnailRandomKey.handlerUploadThumbnail demoLib
                          demoCfg fairFate (pngUpload ["001"; "002"]%byte) demoWorld)
    = Some (RespJSON 200
              (thumbVideo ("http://localhost:8091/assets/" +:+ zeroName))))
    by (vm_compute; reflexivity).
  split; [exact Hresp|].
  destruct (@X14_thumbnail_under_random_key demoLib demoCfg fairFate
              (pngUpload ["001"; "002"]%byte) demoWorld _ _ Hresp)
    as (video & file & ext & bs & filename & _ & _ & _ & _ & _ & Hlen & Hslash
        & _ & _ & Hdisk & _).
  exists filename, file. repeat split; assumption.
Defined.

(** X15 on two PNG thumbnails uploaded one after the other by the owner. *)
Lemma X15_second_thumbnail_replaces_first_witness :
  exists path,
    disk (@ThumbnailByVideoID.handlerUploadThumbnail demoLib demoCfg otherFate
            (pngUpload ["003"]%byte)
            (@ThumbnailByVideoID.handlerUploadThumbnail demoLib demoCfg fairFate
               (pngUpload ["001"; "002"]%byte) demoWorld))
    = <[path := ["003"%byte]]> (disk demoWorld).
Proof.
  refine (proj1 (@X15_second_thumbnail_replaces_first demoLib demoCfg
            fairFate otherFate (pngUpload ["001"; "002"]%byte)
            (pngUpload ["003"]%byte) demoWorld
            (mkPart "upload" {[ "Content-Type" := ["image/png"] ]} ["001"; "002"]%byte)
            (mkPart "upload" {[ "Content-Type" := ["image/png"] ]} ["003"]%byte)
            200 200 (thumbVideo "http://localhost:8091/assets/video-1.png")
            (thumbVideo "http://localhost:8091/assets/video-1.png")
            _ _ _ _ _ _)).
  - vm_compute. reflexivity.
  - vm_compute. reflexivity.
  - reflexivity.
  - reflexivity.
  - reflexivity.
  - reflexivity.
Defined.

(** X16 on the owner's PNG thumbnail when the copy fails after one byte. *)
Lemma X16_failed_copy_leaves_the_file_witness :
  copy copyFailsFate = Some (1%nat, "no space left on device") /\
  EvCreate "./assets/video-1.png"
  ∈ events_since demoWorld
      (@ThumbnailByVideoID.handlerUploadThumbnail demoLib demoCfg copyFailsFate
         (pngUpload ["001"; "002"]%byte) demoWorld) /\
  exists file,
    @thumbnailPart demoLib (pngUpload ["001"; "002"]%byte) = Ok file /\
    disk (@ThumbnailByVideoID.handlerUploadThumbnail demoLib demoCfg copyFailsFate
            (pngUpload ["001"; "002"]%byte) demoWorld) !! "./assets/video-1.png"
    = Some (take 1 (content file)).
Proof.
  assert (Hin : EvCreate "./assets/video-1.png"
    ∈ events_since demoWorld
        (@ThumbnailByVideoID.handlerUploadThumbnail demoLib demoCfg copyFailsFate
           (pngUpload ["001"; "002"]%byte) demoWorld)).
  { vm_compute. apply list_elem_of_here. }
  split; [reflexivity|]. split; [exact Hin|].
  exact (proj1 (proj1 (@X16_failed_copy_leaves_the_file demoLib demoCfg
                         copyFailsFate (pngUpload ["001"; "002"]%byte) demoWorld
                         1%nat "no space left on device" "./assets/video-1.png"
                         eq_refl) Hin)).
Defined.

(** X18 on the owner's PNG thumbnail when the copy fails. *)
Lemma X18_thumbnail_file_is_always_closed_witness :
  EvCreate "./assets/video-1.png"
  ∈ events_since demoWorld
      (@ThumbnailByVideoID.handlerUploadThumbnail demoLib demoCfg copyFailsFate
         (pngUpload ["001"; "002"]%byte) demoWorld) /\
  exists before,
    events_since demoWorld
      (@ThumbnailByVideoID.handlerUploadThumbnail demoLib demoCfg copyFailsFate
         (pngUpload ["001"; "002"]%byte) demoWorld)
    = before ++ [EvClose (OnDisk "./assets/video-1.png"); EvClose UploadPart].
Proof.
  assert (Hin : EvCreate "./assets/video-1.png"
    ∈ events_since demoWorld
        (@ThumbnailByVideoID.handlerUploadThumbnail demoLib demoCfg copyFailsFate
           (pngUpload ["001"; "002"]%byte) demoWorld)).
  { vm_compute. apply list_elem_of_here. }
  split; [exact Hin|].
  exact (proj1 (@X18_thumbnail_file_is_always_closed demoLib demoCfg
                  copyFailsFate (pngUpload ["001"; "002"]%byte) demoWorld
                  "./assets/video-1.png") Hin).
Defined.
